(** * Consent-gated financial data aggregation: the Setu Account Aggregator
      collector of [src/data_processing/collectors.py] and the routes of
      [src/api/routes/data_collection.py] that drive it.

    The collector keeps its consents in the dictionary [active_consents] and
    talks to the network through [self.session]; both are threaded explicitly
    here.  Library functions whose results the code only passes along
    (float parsing, [str.upper], [datetime.isoformat], numpy's generator,
    [pd.to_datetime]) are fields of the class [PyRuntime]. *)

From stdpp Require Import gmap strings list fin_maps pretty.
From Stdlib Require Import ZArith.

Open Scope Z_scope.
Set Warnings "-register-all".

(** ** Values *)

(** What [response.json()] returns.  Python numbers are [int] or [float];
    [F] is the type of floats.  A [dict] keeps its insertion order and has
    distinct keys; it is an association list read at the first match. *)
Inductive Json (F : Type) : Type :=
| JNull
| JBool (b : bool)
| JInt (z : Z)
| JFloat (f : F)
| JStr (s : string)
| JArr (l : list (Json F))
| JObj (kv : list (string * Json F)).

Arguments JNull {F}.
Arguments JBool {F} b.
Arguments JInt {F} z.
Arguments JFloat {F} f.
Arguments JStr {F} s.
Arguments JArr {F} l.
Arguments JObj {F} kv.

(** A cell of a [pd.DataFrame]: the value that was given, [NaN] for a key the
    row's dictionary did not have, or what [pd.to_datetime] and
    [pd.date_range] produce. *)
Inductive Cell (F : Type) : Type :=
| CVal (v : Json F)
| CNaN
| CNaT
| CTimestamp (t : Z).

Arguments CVal {F} v.
Arguments CNaN {F}.
Arguments CNaT {F}.
Arguments CTimestamp {F} t.

(** The exceptions the normalisation can raise. *)
Inductive PyExn : Type :=
| AttributeError
| TypeError
| ValueError
| OverflowError
| PandasError.

(** A computation that returns or raises. *)
Inductive Exc (A : Type) : Type :=
| Ok (a : A)
| Raise (e : PyExn).

Arguments Ok {A} a.
Arguments Raise {A} e.

Definition bindE {A B} (m : Exc A) (k : A -> Exc B) : Exc B :=
  match m with
  | Ok a => k a
  | Raise e => Raise e
  end.

Notation "x <- m ;; k" := (bindE m (fun x => k))
  (at level 100, m at next level, right associativity).

(** ** Library functions taken as given *)

Class PyRuntime : Type := {
  (** Python's [float]. *)
  pyfloat : Type;
  (** [float(n)] for an [int] in range: the nearest double. *)
  float_round : Z -> pyfloat;
  (** [float(s)] for a [str]; [None] is [ValueError]. *)
  float_of_str : string -> option pyfloat;
  (** [x == 0.0], the truth value of a float. *)
  float_is_zero : pyfloat -> bool;
  float_add : pyfloat -> pyfloat -> pyfloat;
  (** [str.upper]. *)
  str_upper : string -> string;
  (** [str(x)] of a value that is not a [str], as an f-string inserts it. *)
  py_repr : Json pyfloat -> string;
  (** [datetime.isoformat]; instants are microseconds from
      1970-01-01T00:00:00. *)
  isoformat : Z -> string;
  (** [str(e)] of the [OverflowError] that [now + timedelta(days=d)] raises
      when the duration or the resulting date is out of range. *)
  overflow_text : Z -> Z -> string;
  (** [hash] of a [str]. *)
  py_hash : string -> Z;
  (** numpy's generator after [np.random.seed(seed)]: the raw draw behind
      [randint], and the [i]-th entry of each array of size [n], in the order
      the code draws them. *)
  np_randint_raw : Z -> Z;
  np_exponential : Z -> nat -> nat -> pyfloat;
  np_choice2 : Z -> nat -> nat -> bool;
  np_choice5 : Z -> nat -> nat -> nat;
  np_cumsum_normal : Z -> nat -> nat -> pyfloat;
  (** [pd.date_range(start, end, periods)] at index [i]. *)
  pd_date_range : Z -> Z -> nat -> nat -> Z;
  (** [pd.to_datetime(column, errors="coerce")]; [None] when pandas raises. *)
  pd_to_datetime : list (Cell pyfloat) -> option (list (Cell pyfloat));
  (** pydantic's check of an [Optional[str]] field: the error text or the
      accepted value. *)
  validate_optional_str : Json pyfloat -> string + Json pyfloat
}.

(** A runtime to evaluate the model on concrete inputs: floats are integers,
    [float(s)] reads an unsigned decimal numeral, [upper] is ASCII. *)
Definition digit_value (a : Ascii.ascii) : option Z :=
  let n := Z.of_nat (Ascii.nat_of_ascii a) in
  if (48 <=? n) && (n <=? 57) then Some (n - 48) else None.

Fixpoint decimal_go (s : string) (acc : Z) : option Z :=
  match s with
  | EmptyString => Some acc
  | String a s' =>
      match digit_value a with
      | Some d => decimal_go s' (10 * acc + d)
      | None => None
      end
  end.

Definition decimal_of_string (s : string) : option Z :=
  match s with
  | EmptyString => None
  | _ => decimal_go s 0
  end.

Definition ascii_upper (a : Ascii.ascii) : Ascii.ascii :=
  let n := Ascii.nat_of_ascii a in
  if (97 <=? n)%nat && (n <=? 122)%nat then Ascii.ascii_of_nat (n - 32) else a.

Fixpoint string_upper (s : string) : string :=
  match s with
  | EmptyString => EmptyString
  | String a s' => String (ascii_upper a) (string_upper s')
  end.

Definition demo_runtime : PyRuntime := {|
  pyfloat := Z;
  float_round := fun z => z;
  float_of_str := decimal_of_string;
  float_is_zero := fun z => z =? 0;
  float_add := Z.add;
  str_upper := string_upper;
  py_repr := fun _ => "None"%string;
  isoformat := fun t => pretty t;
  overflow_text := fun _ _ => "date value out of range"%string;
  py_hash := fun _ => 7;
  np_randint_raw := fun seed => seed;
  np_exponential := fun _ _ i => Z.of_nat i;
  np_choice2 := fun _ _ i => Nat.even i;
  np_choice5 := fun _ _ i => (i mod 5)%nat;
  np_cumsum_normal := fun _ _ i => Z.of_nat i;
  pd_date_range := fun s e n i => s + Z.of_nat i * ((e - s) / Z.of_nat n);
  pd_to_datetime := fun col => Some col;
  validate_optional_str := fun v => inr v
|}.

(** ** Dictionaries and Python's dynamic operations *)

Section Values.
Context {F : Type}.

Fixpoint assoc_get {V : Type} (kv : list (string * V)) (k : string) : option V :=
  match kv with
  | [] => None
  | (k', v) :: rest => if String.eqb k' k then Some v else assoc_get rest k
  end.

(** [d.get(k, default)] on a dict. *)
Definition dict_get (kv : list (string * Json F)) (k : string) (default : Json F) : Json F :=
  match assoc_get kv k with
  | Some v => v
  | None => default
  end.

(** [x.get(k, default)] on any value: only a dict has [get]. *)
Definition py_get (x : Json F) (k : string) (default : Json F) : Exc (Json F) :=
  match x with
  | JObj kv => Ok (dict_get kv k default)
  | _ => Raise AttributeError
  end.

Definition chars_of (s : string) : list (Json F) :=
  (fun a => JStr (String a EmptyString)) <$> String.list_ascii_of_string s.

(** [for v in x]: a list gives its elements, a dict its keys, a string its
    characters; nothing else is iterable. *)
Definition py_iter (x : Json F) : Exc (list (Json F)) :=
  match x with
  | JArr l => Ok l
  | JObj kv => Ok ((fun p => JStr (fst p)) <$> kv)
  | JStr s => Ok (chars_of s)
  | _ => Raise TypeError
  end.

(** [d.update(more)]: an existing key keeps its place and takes the new
    value, a new key goes to the end. *)
Fixpoint dict_set {V : Type} (kv : list (string * V)) (k : string) (v : V) : list (string * V) :=
  match kv with
  | [] => [(k, v)]
  | (k', v') :: rest =>
      if String.eqb k' k then (k, v) :: rest else (k', v') :: dict_set rest k v
  end.

Definition dict_update {V : Type} (kv more : list (string * V)) : list (string * V) :=
  fold_left (fun acc p => dict_set acc (fst p) (snd p)) more kv.

Definition type_name (x : Json F) : string :=
  match x with
  | JNull => "NoneType"
  | JBool _ => "bool"
  | JInt _ => "int"
  | JFloat _ => "float"
  | JStr _ => "str"
  | JArr _ => "list"
  | JObj _ => "dict"
  end.

(** The text of the [AttributeError] for [x.attr]. *)
Definition attribute_error_message (x : Json F) (attr : string) : string :=
  "'" +:+ type_name x +:+ "' object has no attribute '" +:+ attr +:+ "'".
End Values.

(** ** The consent record *)

Inductive DataSourceType : Type :=
| ACCOUNT_AGGREGATOR
| DEVICE_DATA
| BANK_STATEMENTS
| CREDIT_BUREAU
| TELECOM
| UTILITY
| MOBILITY.

Inductive ConsentStatus : Type :=
| PENDING
| GRANTED
| DENIED
| EXPIRED
| REVOKED.

Global Instance ConsentStatus_eq_dec : EqDecision ConsentStatus.
Proof. solve_decision. Defined.

(** [ConsentStatus.value]. *)
Definition status_value (s : ConsentStatus) : string :=
  match s with
  | PENDING => "pending"
  | GRANTED => "granted"
  | DENIED => "denied"
  | EXPIRED => "expired"
  | REVOKED => "revoked"
  end.

(** [timedelta(days=d)] in microseconds. *)
Definition timedelta_days (d : Z) : Z := d * 86400000000.

(** [datetime.min] and [datetime.max], 0001-01-01T00:00:00 and
    9999-12-31T23:59:59.999999, in microseconds from 1970-01-01T00:00:00. *)
Definition datetime_min : Z := -62135596800000000.
Definition datetime_max : Z := 253402300799999999.

(** The instant is one a [datetime] can hold. *)
Definition is_datetime (t : Z) : bool := (datetime_min <=? t) && (t <=? datetime_max).

(** [timedelta(days=d)] can be built: the magnitude of [d] is at most
    999999999. *)
Definition is_timedelta_days (d : Z) : bool := Z.abs d <=? 999999999.

(** The date arithmetic [create_consent_request] does before its [try]
    goes through: [now + timedelta(days=duration_days)] and
    [now - timedelta(days=365)] exist. *)
Definition duration_in_range (now days : Z) : bool :=
  is_timedelta_days days
  && is_datetime (now + timedelta_days days)
  && is_datetime (now - timedelta_days 365).

Section Collector.
Context `{RT : PyRuntime}.

Local Abbreviation json := (Json pyfloat).
Local Abbreviation cell := (Cell pyfloat).

(** [bool(x)]. *)
Definition truthy (x : json) : bool :=
  match x with
  | JNull => false
  | JBool b => b
  | JInt z => negb (z =? 0)
  | JFloat f => negb (float_is_zero f)
  | JStr s => negb (String.eqb s "")
  | JArr l => match l with [] => false | _ => true end
  | JObj kv => match kv with [] => false | _ => true end
  end.

(** [f"{x}"]. *)
Definition format_value (x : json) : string :=
  match x with
  | JStr s => s
  | _ => py_repr x
  end.

(** [consent_id] and [consent_url] hold whatever the network sent under
    ["id"] and ["url"]; [JNull] is Python's [None]. *)
Record ConsentRequest : Type := {
  user_id : string;
  data_sources : list DataSourceType;
  purpose : string;
  duration_days : Z;
  created_at : Z;
  expires_at : Z;
  status : ConsentStatus;
  consent_handle : option string;
  consent_id : json;
  consent_url : json;
  fi_types : list string
}.

Definition set_status (s : ConsentStatus) (c : ConsentRequest) : ConsentRequest :=
  {| user_id := user_id c; data_sources := data_sources c; purpose := purpose c;
     duration_days := duration_days c; created_at := created_at c;
     expires_at := expires_at c; status := s; consent_handle := consent_handle c;
     consent_id := consent_id c; consent_url := consent_url c; fi_types := fi_types c |}.

Definition set_remote (id url : json) (c : ConsentRequest) : ConsentRequest :=
  {| user_id := user_id c; data_sources := data_sources c; purpose := purpose c;
     duration_days := duration_days c; created_at := created_at c;
     expires_at := expires_at c; status := status c; consent_handle := consent_handle c;
     consent_id := id; consent_url := url; fi_types := fi_types c |}.

(** ** The network *)

Inductive Request : Type :=
| GET (url : string)
| POST (url : string) (body : json).

(** What [self.session.get]/[post] does: raise (with the text of the
    exception) or return a response, of which the code reads
    [status_code], [text] and [json()] (which raises on a body that is not
    JSON). *)
Inductive Reply : Type :=
| NetRaise (message : string)
| NetResponse (status_code : Z) (text : string) (body : string + json).

(** The network decides its [n]-th reply from the request it receives. *)
Definition Network : Type := nat -> Request -> Reply.

Record Collector : Type := {
  is_configured : bool;
  api_base_url : string;
  client_id : json;
  webhook_url : json;
  active_consents : gmap string ConsentRequest;
  (** the requests sent so far, oldest first *)
  net_log : list Request
}.

Definition with_consents (m : gmap string ConsentRequest) (c : Collector) : Collector :=
  {| is_configured := is_configured c; api_base_url := api_base_url c;
     client_id := client_id c; webhook_url := webhook_url c;
     active_consents := m; net_log := net_log c |}.

(** One call through [self.session]. *)
Definition session_send (net : Network) (r : Request) (c : Collector) : Reply * Collector :=
  (net (length (net_log c)) r,
   {| is_configured := is_configured c; api_base_url := api_base_url c;
      client_id := client_id c; webhook_url := webhook_url c;
      active_consents := active_consents c; net_log := net_log c ++ [r] |}).

(** ** Consent creation *)

(** [a or b] on an optional string argument. *)
Definition str_or (a : option string) (b : string) : string :=
  match a with
  | Some s => if String.eqb s "" then b else s
  | None => b
  end.

(** [SetuConsentRequest(...).to_dict()], with ["ConsentNotifier"] added when
    a webhook URL is configured. *)
Definition consent_payload (c : Collector) (uid : string) (fi : list string)
    (purpose_text : string) (days : Z) (customer_mobile : option string) (now : Z) : json :=
  let base : list (string * json) :=
    [ ("consentStart", JStr (isoformat now));
      ("consentExpiry", JStr (isoformat (now + timedelta_days days)));
      ("consentMode", JStr "STORE");
      ("fetchType", JStr "PERIODIC");
      ("consentTypes", JArr [JStr "TRANSACTIONS"; JStr "PROFILE"; JStr "SUMMARY"]);
      ("fiTypes", JArr (JStr <$> fi));
      ("DataConsumer", JObj [("id", client_id c); ("type", JStr "FIU")]);
      ("DataProvider", JObj [("id", JStr "SETU-FIP"); ("type", JStr "FIP")]);
      ("Customer", JObj
         [ ("id", JStr (str_or customer_mobile ("customer_" +:+ uid)));
           ("Identifiers", JArr
              [ JObj [("type", JStr "MOBILE");
                      ("value", JStr (str_or customer_mobile "9999999999"))] ]) ]);
      ("Purpose", JObj
         [ ("code", JStr "101");
           ("refUri", JStr "https://api.rebit.org.in/aa/purpose/101.xml");
           ("text", JStr purpose_text) ]);
      ("FIDataRange", JObj
         [ ("from", JStr (isoformat (now - timedelta_days 365)));
           ("to", JStr (isoformat now)) ]);
      ("Frequency", JObj [("unit", JStr "MONTH"); ("value", JInt 1)]);
      ("DataLife", JObj [("unit", JStr "MONTH"); ("value", JInt 3)]) ] in
  if truthy (webhook_url c)
  then JObj (dict_set base "ConsentNotifier"
               (JObj [("type", JStr "WEBHOOK"); ("url", webhook_url c)]))
  else JObj base.

Definition default_fi_types : list string :=
  ["DEPOSIT"; "TERM_DEPOSIT"; "RECURRING_DEPOSIT"].

(** The local record built before the network is called; its [status] is the
    dataclass default. *)
Definition new_consent (uid : string) (fi : list string) (purpose_text : string)
    (days : Z) (handle : string) (now : Z) : ConsentRequest :=
  {| user_id := uid; data_sources := [ACCOUNT_AGGREGATOR]; purpose := purpose_text;
     duration_days := days; created_at := now; expires_at := now + timedelta_days days;
     status := PENDING; consent_handle := Some handle;
     consent_id := JNull; consent_url := JNull; fi_types := fi |}.

(** [create_consent_request].  [handle] is what [uuid.uuid4()] gives and [now]
    what [datetime.now()] reads during the call; [customer_name] is accepted
    and not used.  The dates of the consent are computed before the [try]:
    a duration out of range raises [OverflowError] to the caller, and nothing
    is sent or stored.  The store [self.active_consents[consent_handle] = ...]
    is the last statement inside the [try]: an exception raised before it
    goes to the handler, which sets [DENIED] on the record and returns it. *)
Definition create_consent_request (net : Network) (c : Collector) (uid : string)
    (fi_arg : option (list string)) (purpose_text : string) (days : Z)
    (customer_mobile customer_name : option string) (handle : string) (now : Z)
    : Exc ConsentRequest * Collector :=
  if negb (is_configured c) then (Raise ValueError, c)
  else if negb (duration_in_range now days) then (Raise OverflowError, c)
  else
    let fi := match fi_arg with Some l => l | None => default_fi_types end in
    let consent_request := new_consent uid fi purpose_text days handle now in
    let url := api_base_url c +:+ "/consents" in
    let payload := consent_payload c uid fi purpose_text days customer_mobile now in
    let '(reply, c1) := session_send net (POST url payload) c in
    let stored (r : ConsentRequest) :=
      (Ok r, with_consents (<[handle := r]> (active_consents c1)) c1) in
    let handler := (Ok (set_status DENIED consent_request), c1) in
    match reply with
    | NetRaise _ => handler
    | NetResponse code _ body =>
        if code =? 200 then
          match body with
          | inl _ => handler
          | inr (JObj kv) =>
              stored (set_status PENDING
                        (set_remote (dict_get kv "id" JNull) (dict_get kv "url" JNull)
                           consent_request))
          | inr _ => handler
          end
        else stored (set_status DENIED consent_request)
    end.

(** ** Status reconciliation *)

(** [status_mapping.get(api_status, ConsentStatus.PENDING)]. *)
Definition status_mapping : list (string * ConsentStatus) :=
  [ ("ACTIVE", GRANTED); ("PAUSED", PENDING); ("REVOKED", REVOKED);
    ("EXPIRED", EXPIRED); ("PENDING", PENDING); ("REJECTED", DENIED) ].

Definition status_mapping_get (api_status : string) : ConsentStatus :=
  match assoc_get status_mapping api_status with
  | Some s => s
  | None => PENDING
  end.

Definition update_consent (handle : string) (r : ConsentRequest) (c : Collector) : Collector :=
  with_consents (<[handle := r]> (active_consents c)) c.

(** [get_consent_status]. *)
Definition get_consent_status (net : Network) (c : Collector) (handle : string) (now : Z)
    : ConsentStatus * Collector :=
  match active_consents c !! handle with
  | None => (DENIED, c)
  | Some consent =>
      if expires_at consent <? now
      then (EXPIRED, update_consent handle (set_status EXPIRED consent) c)
      else if negb (truthy (consent_id consent)) then (status consent, c)
      else
        let url := api_base_url c +:+ "/Consent/handle/" +:+ format_value (consent_id consent) in
        let '(reply, c1) := session_send net (GET url) c in
        match reply with
        | NetRaise _ => (DENIED, c1)
        | NetResponse code _ body =>
            if code =? 200 then
              match body with
              | inl _ => (DENIED, c1)
              | inr (JObj kv) =>
                  match dict_get kv "status" (JStr "") with
                  | JStr s =>
                      let mapped := status_mapping_get (str_upper s) in
                      (mapped, update_consent handle (set_status mapped consent) c1)
                  | _ => (DENIED, c1)
                  end
              | inr _ => (DENIED, c1)
              end
            else (status consent, c1)
        end
  end.
(** ** Requesting a fetch session *)

(** [request_fi_data].  [inl msg] is the [ValueError] the method raises with
    text [msg]; [inr d] is the dictionary it returns. *)
Definition request_fi_data (net : Network) (c : Collector) (handle : string) (now : Z)
    : (string + list (string * json)) * Collector :=
  match active_consents c !! handle with
  | None => (inl "Invalid consent handle"%string, c)
  | Some consent =>
      let '(st, c1) := get_consent_status net c handle now in
      if negb (bool_decide (st = GRANTED))
      then (inl "Consent not granted or expired"%string, c1)
      else
        let payload : json :=
          JObj [ ("consentId", consent_id consent);
                 ("from", JStr (isoformat (now - timedelta_days 365)));
                 ("to", JStr (isoformat now));
                 ("curve", JStr "Curve25519");
                 ("format", JStr "json") ] in
        let url := api_base_url c1 +:+ "/FI/request" in
        let '(reply, c2) := session_send net (POST url payload) c1 in
        let failed (e : string) : list (string * json) :=
          [ ("success", JBool false); ("error", JStr e);
            ("message", JStr "Failed to initiate FI data request") ] in
        match reply with
        | NetRaise e => (inr (failed e), c2)
        | NetResponse code text body =>
            if code =? 200 then
              match body with
              | inl e => (inr (failed e), c2)
              | inr (JObj kv) =>
                  (inr [ ("success", JBool true);
                         ("session_id", dict_get kv "sessionId" JNull);
                         ("consent_id", consent_id consent);
                         ("message", JStr "FI data request initiated successfully") ], c2)
              | inr other => (inr (failed (attribute_error_message other "get")), c2)
              end
            else
              (inr [ ("success", JBool false);
                     ("error", JStr ("API error: " +:+ pretty code));
                     ("message", JStr text) ], c2)
        end
  end.

(** ** Normalisation *)

Record DataFrame : Type := {
  df_columns : list string;
  (** one list of cells per row, in the order of [df_columns] *)
  df_rows : list (list cell)
}.

(** [len(df)]. *)
Definition df_len (df : DataFrame) : nat := length (df_rows df).

(** [float(x)]: an [int] converts unless it rounds beyond the largest
    double. *)
Definition float_conv (x : json) : Exc pyfloat :=
  match x with
  | JInt z =>
      if Z.abs z <? 2 ^ 1024 - 2 ^ 970 then Ok (float_round z) else Raise OverflowError
  | JFloat f => Ok f
  | JBool b => Ok (float_round (if b then 1 else 0))
  | JStr s =>
      match float_of_str s with
      | Some f => Ok f
      | None => Raise ValueError
      end
  | _ => Raise TypeError
  end.

(** [summary_data]. *)
Definition summary_data (account_info : json) : Exc (list (string * json)) :=
  match account_info with
  | JObj kv =>
      Ok [ ("account_id", dict_get kv "accountId" JNull);
           ("account_type", dict_get kv "type" JNull);
           ("account_name", dict_get kv "name" JNull);
           ("masked_number", dict_get kv "maskedAccountNumber" JNull);
           ("current_balance", dict_get kv "currentBalance" (JInt 0));
           ("available_balance", dict_get kv "availableBalance" (JInt 0));
           ("opening_date", dict_get kv "openingDate" JNull);
           ("currency", dict_get kv "currency" (JStr "INR")) ]
  | _ => Raise AttributeError
  end.

(** [transaction_data]: a copy of the summary updated with the transaction's
    fields. *)
Definition transaction_data (summary : list (string * json)) (txn : json)
    : Exc (list (string * json)) :=
  match txn with
  | JObj kv =>
      amount <- float_conv (dict_get kv "amount" (JInt 0)) ;;
      balance <- float_conv (dict_get kv "currentBalance" (JInt 0)) ;;
      Ok (dict_update summary
            [ ("transaction_id", dict_get kv "transactionId" JNull);
              ("transaction_date", dict_get kv "transactionDate" JNull);
              ("amount", JFloat amount);
              ("transaction_type", dict_get kv "type" JNull);
              ("description", dict_get kv "description" JNull);
              ("balance_after_txn", JFloat balance);
              ("value_date", dict_get kv "valueDate" JNull);
              ("reference", dict_get kv "reference" JNull) ])
  | _ => Raise AttributeError
  end.

(** The inner loop: [processed_records.append(transaction_data)]. *)
Fixpoint process_transactions (summary : list (string * json)) (txns : list json)
    (processed_records : list (list (string * json))) : Exc (list (list (string * json))) :=
  match txns with
  | [] => Ok processed_records
  | txn :: rest =>
      r <- transaction_data summary txn ;;
      process_transactions summary rest (processed_records ++ [r])
  end.

(** One turn of the outer loop. *)
Definition process_account (account : json)
    (processed_records : list (list (string * json))) : Exc (list (list (string * json))) :=
  account_info <- py_get account "account" (JObj []) ;;
  transactions <- py_get account "transactions" (JArr []) ;;
  summary <- summary_data account_info ;;
  txns <- py_iter transactions ;;
  recs <- process_transactions summary txns processed_records ;;
  if negb (truthy transactions) then Ok (recs ++ [summary]) else Ok recs.

Fixpoint process_accounts (accounts : list json)
    (processed_records : list (list (string * json))) : Exc (list (list (string * json))) :=
  match accounts with
  | [] => Ok processed_records
  | account :: rest =>
      recs <- process_account account processed_records ;;
      process_accounts rest recs
  end.

(** [pd.DataFrame(processed_records)]: the columns are the keys in the order
    they first appear, a key a record lacks gives [NaN]. *)
Definition add_columns (cols : list string) (r : list (string * json)) : list string :=
  fold_left (fun acc p => if bool_decide (fst p ∈ acc) then acc else acc ++ [fst p]) r cols.

Definition frame_of_records (records : list (list (string * json))) : DataFrame :=
  let cols := fold_left add_columns records [] in
  {| df_columns := cols;
     df_rows :=
       (fun r => (fun col => match assoc_get r col with
                             | Some v => CVal v
                             | None => CNaN
                             end) <$> cols) <$> records |}.

Fixpoint index_of (col : string) (cols : list string) : option nat :=
  match cols with
  | [] => None
  | c0 :: rest => if String.eqb c0 col then Some 0%nat else S <$> index_of col rest
  end.

(** [df[col] = pd.to_datetime(df[col], errors="coerce")] when [col] is a
    column; the assignment keeps the rows. *)
Definition convert_date_column (col : string) (df : DataFrame) : Exc DataFrame :=
  match index_of col (df_columns df) with
  | None => Ok df
  | Some i =>
      match pd_to_datetime ((fun row => default CNaN (row !! i)) <$> df_rows df) with
      | None => Raise PandasError
      | Some converted =>
          Ok {| df_columns := df_columns df;
                df_rows := imap (fun k row => <[i := default CNaT (converted !! k)]> row)
                             (df_rows df) |}
      end
  end.

Definition date_columns : list string := ["transaction_date"; "value_date"; "opening_date"].

Definition convert_dates (df : DataFrame) : Exc DataFrame :=
  fold_left (fun acc col => d <- acc ;; convert_date_column col d) date_columns (Ok df).

Definition empty_frame : DataFrame :=
  {| df_columns :=
       [ "account_id"; "account_type"; "account_name"; "masked_number";
         "current_balance"; "available_balance"; "transaction_id";
         "transaction_date"; "amount"; "transaction_type"; "description" ];
     df_rows := [] |}.

(** The body of the [try] in [_process_setu_fi_data]. *)
Definition process_body (fi_data : json) : Exc DataFrame :=
  accounts <- py_get fi_data "Accounts" (JArr []) ;;
  items <- py_iter accounts ;;
  processed_records <- process_accounts items [] ;;
  match processed_records with
  | [] => Ok empty_frame
  | _ => convert_dates (frame_of_records processed_records)
  end.

(** [_generate_sample_financial_data]. *)
Definition sample_categories : list string :=
  ["salary"; "groceries"; "utilities"; "entertainment"; "transport"].

Definition _generate_sample_financial_data (uid : string) (now : Z) : DataFrame :=
  let seed := py_hash uid mod 2 ^ 32 in
  let n_transactions := Z.to_nat (50 + np_randint_raw seed mod 150) in
  let row (i : nat) : list cell :=
    [ CVal (JStr uid);
      CTimestamp (pd_date_range (now - timedelta_days 90) now n_transactions i);
      CVal (JFloat (np_exponential seed n_transactions i));
      CVal (JStr (if np_choice2 seed n_transactions i then "debit" else "credit"));
      CVal (JStr (default "" (sample_categories !! (np_choice5 seed n_transactions i mod 5)%nat)));
      CVal (JFloat (float_add (np_cumsum_normal seed n_transactions i) (float_round 10000)));
      CVal (JStr ("ACC_" +:+ uid +:+ "_001"));
      CVal (JStr "SAVINGS") ] in
  {| df_columns :=
       [ "user_id"; "transaction_date"; "amount"; "transaction_type"; "category";
         "account_balance"; "account_id"; "account_type" ];
     df_rows := row <$> seq 0 n_transactions |}.

(** [_process_setu_fi_data]: any exception of the body is logged and the
    sample data is returned in its place. *)
Definition _process_setu_fi_data (fi_data : json) (now : Z) : DataFrame :=
  match process_body fi_data with
  | Ok df => df
  | Raise _ => _generate_sample_financial_data "demo_user" now
  end.
(** ** Fetching a session *)

Record CollectionResult : Type := {
  success : bool;
  data : option DataFrame;
  metadata : list (string * json);
  error_message : option string;
  records_collected : nat;
  collection_timestamp : option Z
}.

Definition failed_result (session_id : string) (msg : string) : CollectionResult :=
  {| success := false; data := None; metadata := [("session_id", JStr session_id)];
     error_message := Some msg; records_collected := 0%nat; collection_timestamp := None |}.

(** The [metadata] of a successful fetch. *)
Definition fetch_metadata (session_id : string) (kv : list (string * json)) : list (string * json) :=
  [ ("session_id", JStr session_id);
    ("data_source", JStr "setu_aa");
    ("collection_method", JStr "api");
    ("raw_response_keys", JArr ((fun p => JStr (fst p)) <$> kv)) ].

(** [fetch_fi_data].  [response_data.keys()] is evaluated after the payload
    has been processed and raises on a payload that is not a dict; the outer
    handler turns that into a failed result. *)
Definition fetch_fi_data (net : Network) (c : Collector) (session_id : string) (now : Z)
    : CollectionResult * Collector :=
  let url := api_base_url c +:+ "/FI/fetch/" +:+ session_id in
  let '(reply, c1) := session_send net (GET url) c in
  match reply with
  | NetRaise e => (failed_result session_id e, c1)
  | NetResponse code _ body =>
      if code =? 200 then
        match body with
        | inl e => (failed_result session_id e, c1)
        | inr response_data =>
            let df := _process_setu_fi_data response_data now in
            match response_data with
            | JObj kv =>
                ({| success := true; data := Some df;
                    metadata := fetch_metadata session_id kv;
                    error_message := None; records_collected := df_len df;
                    collection_timestamp := Some now |}, c1)
            | other =>
                (failed_result session_id (attribute_error_message other "keys"), c1)
            end
        end
      else (failed_result session_id ("API error: " +:+ pretty code), c1)
  end.
End Collector.

(** ** The routes of [data_collection.py] *)

Module Routes.
Section Routes.
Context `{RT : PyRuntime}.

Local Abbreviation json := (Json pyfloat).

Inductive HTTPException : Type :=
| mkHTTPException (status_code : Z) (detail : json).

Record FIDataResponse : Type := {
  fi_success : bool;
  fi_session_id : json;
  fi_consent_id : json;
  fi_message : string
}.

(** [POST /request-fi-data].  The collector is the configured one;
    [now1] and [now2] are the clock readings of the route's own status check
    and of the collector's [request_fi_data], which the body calls under the
    same name. *)
Definition request_fi_data (net : Network) (c : Collector) (handle : string) (now1 now2 : Z)
    : (HTTPException + FIDataResponse) * Collector :=
  let '(st, c1) := get_consent_status net c handle now1 in
  if negb (bool_decide (st = GRANTED))
  then (inl (mkHTTPException 400
               (JStr ("Consent not granted. Current status: " +:+ status_value st))), c1)
  else
    let '(res, c2) := request_fi_data net c1 handle now2 in
    let internal (e : string) :=
      inl (mkHTTPException 500 (JStr ("Internal server error: " +:+ e))) in
    match res with
    | inl e => (internal e, c2)
    | inr result =>
        match assoc_get result "success" with
        | None => (internal "'success'", c2)
        | Some ok =>
            if negb (truthy ok)
            then (inl (mkHTTPException 400
                         (dict_get result "message" (JStr "Failed to request FI data"))), c2)
            else
              match validate_optional_str (dict_get result "session_id" JNull),
                    validate_optional_str (dict_get result "consent_id" JNull) with
              | inr sid, inr cid =>
                  (inr {| fi_success := true; fi_session_id := sid; fi_consent_id := cid;
                          fi_message :=
                            "FI data request initiated successfully. Use session_id to fetch data." |},
                   c2)
              | inl e, _ => (internal e, c2)
              | _, inl e => (internal e, c2)
              end
        end
    end.

(** [POST /webhook/aa-consent]: the notification is logged; the collector is
    not involved. *)
Definition aa_consent_webhook (request : list (string * json)) (c : Collector)
    : (HTTPException + json) * Collector :=
  let consent_id := dict_get request "consentId" JNull in
  let status := dict_get request "status" JNull in
  (inr (JObj [ ("status", JStr "received");
               ("message", JStr "Webhook processed successfully") ]), c).
End Routes.
End Routes.

(** ** Sequences of operations *)

Section Operations.
Context `{RT : PyRuntime}.

Local Abbreviation json := (Json pyfloat).

Inductive Op : Type :=
| OpCreate (uid : string) (fi_arg : option (list string)) (purpose_text : string)
    (days : Z) (customer_mobile customer_name : option string) (handle : string) (now : Z)
| OpGetStatus (handle : string) (now : Z)
| OpRequest (handle : string) (now : Z)
| OpFetch (session_id : string) (now : Z)
| OpWebhook (request : list (string * json)).

Definition run_op (net : Network) (c : Collector) (op : Op) : Collector :=
  match op with
  | OpCreate uid fi_arg purpose_text days mobile name handle now =>
      snd (create_consent_request net c uid fi_arg purpose_text days mobile name handle now)
  | OpGetStatus handle now => snd (get_consent_status net c handle now)
  | OpRequest handle now => snd (request_fi_data net c handle now)
  | OpFetch session_id now => snd (fetch_fi_data net c session_id now)
  | OpWebhook request => snd (Routes.aa_consent_webhook request c)
  end.

Definition run_ops (net : Network) (ops : list Op) (c : Collector) : Collector :=
  fold_left (run_op net) ops c.

(** The status stored under a handle. *)
Definition stored_status (c : Collector) (handle : string) : option ConsentStatus :=
  status <$> active_consents c !! handle.

(** The handle an operation stores a new consent under. *)
Definition creates (op : Op) : option string :=
  match op with
  | OpCreate _ _ _ _ _ _ handle _ => Some handle
  | _ => None
  end.

(** The clock reading with which an operation runs [get_consent_status] on
    the handle [h]: the status check itself, and [request_fi_data], which
    calls it. *)
Definition polls (op : Op) (h : string) : option Z :=
  match op with
  | OpGetStatus handle now | OpRequest handle now =>
      if String.eqb handle h then Some now else None
  | _ => None
  end.
(** The URL [get_consent_status] reads for a consent. *)
Definition status_url (c : Collector) (consent : ConsentRequest) : string :=
  api_base_url c +:+ "/Consent/handle/" +:+ format_value (consent_id consent).

(** The requests one status check on [h] sends from the collector [c]: the
    read of the consent's remote status when the consent is stored, not past
    [expires_at] and has a remote id, and nothing otherwise. *)
Definition status_requests (c : Collector) (h : string) (now : Z) : list Request :=
  match active_consents c !! h with
  | Some consent =>
      if (expires_at consent <? now) || negb (truthy (consent_id consent))
      then []
      else [GET (status_url c consent)]
  | None => []
  end.

(** The remote status the network gives a status check sent from [c] for
    [consent]: the string under ["status"] of a 200 answer whose body is a
    JSON object.  [None] when no read is sent (no remote id) and when the
    answer is of any other kind. *)
Definition reported_status (net : Network) (c : Collector) (consent : ConsentRequest)
    : option string :=
  if negb (truthy (consent_id consent)) then None
  else
    match net (length (net_log c)) (GET (status_url c consent)) with
    | NetResponse code _ (inr (JObj kv)) =>
        if code =? 200 then
          match dict_get kv "status" (JStr "") with
          | JStr s => Some s
          | _ => None
          end
        else None
    | _ => None
    end.

(** What one status check, run at [now] from the collector [c], does to the
    status of the consent it is asked about: [EXPIRED] past [expires_at];
    otherwise the mapping of the remote status the network reports to this
    check, upper-cased; and the cached status when the network reports
    none. *)
Definition reconciled (net : Network) (c : Collector) (consent : ConsentRequest)
    (now : Z) (s' : ConsentStatus) : Prop :=
  if expires_at consent <? now then s' = EXPIRED
  else
    match reported_status net c consent with
    | Some remote => s' = status_mapping_get (str_upper remote)
    | None => s' = status consent
    end.

End Operations.


(** ** What a payload holds *)

Section Payload.
Context `{RT : PyRuntime}.

Local Abbreviation json := (Json pyfloat).

(** The accounts the outer loop visits, and the transactions the inner loop
    visits under an account; nothing where the loop cannot start. *)
Definition accounts_of (fi_data : json) : list json :=
  match (accounts <- py_get fi_data "Accounts" (JArr []) ;; py_iter accounts) with
  | Ok l => l
  | Raise _ => []
  end.

Definition transactions_of (account : json) : list json :=
  match (transactions <- py_get account "transactions" (JArr []) ;; py_iter transactions) with
  | Ok l => l
  | Raise _ => []
  end.

(** M, the transactions of all accounts together. *)
Definition total_transactions (fi_data : json) : nat :=
  sum_list ((λ a, length (transactions_of a)) <$> accounts_of fi_data).

Definition has_no_transactions (account : json) : bool :=
  match transactions_of account with
  | [] => true
  | _ => false
  end.

(** The number of accounts with zero transactions. *)
Definition accounts_without_transactions (fi_data : json) : nat :=
  length (filter (λ a, has_no_transactions a = true) (accounts_of fi_data)).

(** The records the specification asks for under one account: one per
    transaction, each the account's summary followed by the transaction's
    fields, or the summary alone when there is no transaction. *)
Definition emitted_for (account : json) (recs : list (list (string * json))) : Prop :=
  ∃ account_info summary,
    py_get account "account" (JObj []) = Ok account_info
    ∧ summary_data account_info = Ok summary
    ∧ match transactions_of account with
      | [] => recs = [summary]
      | txns =>
          Forall2 (λ txn r, transaction_data summary txn = Ok r
                            ∧ ∃ fields, r = summary ++ fields) txns recs
      end.

(** The keys a transaction adds to its record. *)
Definition transaction_keys : list string :=
  [ "transaction_id"; "transaction_date"; "amount"; "transaction_type";
    "description"; "balance_after_txn"; "value_date"; "reference" ].
End Payload.

(** ** A concrete collector and networks to evaluate the model on *)

Module Demo.
#[local] Existing Instance demo_runtime.

Definition consent (st : ConsentStatus) (remote : Json Z) (expires : Z) : ConsentRequest :=
  {| user_id := "user-42"; data_sources := [ACCOUNT_AGGREGATOR];
     purpose := "Credit Assessment"; duration_days := 30; created_at := 0;
     expires_at := expires; status := st; consent_handle := Some "H1"%string;
     consent_id := remote; consent_url := JNull; fi_types := ["DEPOSIT"%string] |}.

Definition collector (m : gmap string ConsentRequest) : Collector :=
  {| is_configured := true; api_base_url := "https://fiu-uat.setu.co";
     client_id := JStr "test_client_id"; webhook_url := JNull;
     active_consents := m; net_log := [] |}.

(** One stored consent under the handle ["H1"]. *)
Definition tracking (st : ConsentStatus) (remote : Json Z) (expires : Z) : Collector :=
  collector {[ "H1"%string := consent st remote expires ]}.

(** A network that answers every request with 200 and the given body. *)
Definition net_ok (body : Json Z) : Network := fun _ _ => NetResponse 200 "" (inr body).

(** A network that answers the [n]-th request with the [n]-th body. *)
Definition net_script (bodies : list (Json Z)) : Network :=
  fun n _ => NetResponse 200 "" (inr (default JNull (bodies !! n))).

(** A network that is down. *)
Definition net_down : Network := fun _ _ => NetRaise "Connection refused".

(** A network that rejects every request. *)
Definition net_reject : Network := fun _ _ => NetResponse 500 "Internal Server Error" (inl "Expecting value"%string).

Definition remote_status (s : string) : Json Z := JObj [("status", JStr s)].

Definition transaction (id : string) (amount : Json Z) : Json Z :=
  JObj [("transactionId", JStr id); ("amount", amount); ("type", JStr "DEBIT")].

Definition account (id : string) (txns : list (Json Z)) : Json Z :=
  JObj [ ("account", JObj [("accountId", JStr id); ("type", JStr "SAVINGS")]);
         ("transactions", JArr txns) ].

(** Two accounts: one with two transactions, one with none. *)
Definition payload_ok : Json Z :=
  JObj [("Accounts", JArr [ account "A1" [transaction "T1" (JInt 120); transaction "T2" (JStr "75")];
                            account "A2" [] ])].

(** The same with the amount of the first transaction not a number. *)
Definition payload_bad_amount : Json Z :=
  JObj [("Accounts", JArr [ account "A1" [transaction "T1" (JStr "abc"); transaction "T2" (JStr "75")];
                            account "A2" [] ])].
End Demo.

(** ** Further definitions

    The rest of the collector module and of the routes, and what the
    further properties are stated with. *)

Section RequestPayload.
Context `{RT : PyRuntime}.

(** The body [request_fi_data] posts to /FI/request. *)
Definition fi_request_payload (remote : Json pyfloat) (now : Z) : Json pyfloat :=
  JObj [ ("consentId", remote);
         ("from", JStr (isoformat (now - timedelta_days 365)));
         ("to", JStr (isoformat now));
         ("curve", JStr "Curve25519");
         ("format", JStr "json") ].
End RequestPayload.

Section FrameColumns.
Context `{RT : PyRuntime}.

(** The keys of [summary_data]. *)
Definition summary_keys : list string :=
  [ "account_id"; "account_type"; "account_name"; "masked_number";
    "current_balance"; "available_balance"; "opening_date"; "currency" ].

(** How far the columns of a frame under construction have grown: nothing
    yet, the account columns, or the account and transaction columns. *)
Definition columns_at (level : nat) : list string :=
  match level with
  | O => []
  | S O => summary_keys
  | _ => summary_keys ++ transaction_keys
  end.

(** What an account brings: the account columns, and the transaction columns
    too when it has a transaction. *)
Definition account_level (account : Json pyfloat) : nat :=
  if has_no_transactions account then 1%nat else 2%nat.
End FrameColumns.

Section Configuration.
Context `{RT : PyRuntime}.

Local Abbreviation json := (Json pyfloat).

(** What [configure] sets besides the fields of [Collector]: the secret, the
    timeout and the headers of [self.session]. *)
Record Credentials : Type := {
  client_secret : json;
  consent_timeout : json;
  session_headers : list (string * json)
}.

(** [AccountAggregatorCollector.configure].  The fields are assigned before
    the check of the required ones, and [_is_configured] only after it.
    [api_base_url] is kept as the text every use of it inserts in a URL.  A
    [config] that is not a dict raises at the first [get], which the handler
    turns into [False]. *)
Definition configure (config : json) (c : Collector) (k : Credentials)
    : bool * (Collector * Credentials) :=
  match config with
  | JObj kv =>
      let url := dict_get kv "api_base_url" (JStr "https://fiu-uat.setu.co") in
      let id := dict_get kv "client_id" JNull in
      let secret := dict_get kv "client_secret" JNull in
      let assigned (configured : bool) (headers : list (string * json)) :=
        ({| is_configured := configured; api_base_url := format_value url;
            client_id := id; webhook_url := dict_get kv "webhook_url" JNull;
            active_consents := active_consents c; net_log := net_log c |},
         {| client_secret := secret;
            consent_timeout := dict_get kv "consent_timeout" (JInt 300);
            session_headers := headers |}) in
      if truthy url && truthy id && truthy secret
      then (true,
            assigned true
              (dict_update (session_headers k)
                 [ ("Content-Type", JStr "application/json");
                   ("x-client-id", id);
                   ("x-client-secret", secret) ]))
      else (false, assigned (is_configured c) (session_headers k))
  | _ => (false, (c, k))
  end.

(** The keyword arguments of [collect_data], each absent or of the type the
    method it is passed to declares. *)
Record CollectArgs : Type := {
  kw_consent_handle : option string;
  kw_session_id : option string;
  kw_fi_types : option (list string);
  kw_purpose : option string;
  kw_duration_days : option Z;
  kw_customer_mobile : option string;
  kw_customer_name : option string
}.

(** The string of a keyword argument that is present and not empty. *)
Definition given (a : option string) : option string :=
  match a with
  | Some s => if String.eqb s "" then None else Some s
  | None => None
  end.

Definition pending_result (meta : list (string * json)) : CollectionResult :=
  {| success := true; data := None; metadata := meta; error_message := None;
     records_collected := 0%nat; collection_timestamp := None |}.

(** [AccountAggregatorCollector.collect_data].  [inl msg] is the text of
    the exception that [request_fi_data] or [create_consent_request] raised
    and that nothing here catches. *)
Definition collect_data (net : Network) (c : Collector) (uid : string)
    (kwargs : CollectArgs) (handle : string) (now : Z)
    : (string + CollectionResult) * Collector :=
  match given (kw_session_id kwargs) with
  | Some session_id =>
      let '(r, c1) := fetch_fi_data net c session_id now in (inr r, c1)
  | None =>
      match given (kw_consent_handle kwargs) with
      | Some consent_handle =>
          let '(res, c1) := request_fi_data net c consent_handle now in
          match res with
          | inl e => (inl e, c1)
          | inr fi_request_result =>
              match assoc_get fi_request_result "success" with
              | None => (inl "'success'"%string, c1)
              | Some ok =>
                  if truthy ok then (inr (pending_result fi_request_result), c1)
                  else
                    (inr {| success := false; data := None;
                            metadata := fi_request_result;
                            error_message :=
                              match dict_get fi_request_result "message" JNull with
                              | JStr s => Some s
                              | _ => None
                              end;
                            records_collected := 0%nat;
                            collection_timestamp := None |}, c1)
              end
          end
      | None =>
          let fi := default ["DEPOSIT"; "TERM_DEPOSIT"]%string (kw_fi_types kwargs) in
          let purpose_text := default "Credit Assessment"%string (kw_purpose kwargs) in
          let days := default 30 (kw_duration_days kwargs) in
          let '(res, c1) :=
            create_consent_request net c uid (Some fi) purpose_text days
              (kw_customer_mobile kwargs) (kw_customer_name kwargs) handle now in
          match res with
          | Raise OverflowError => (inl (overflow_text now days), c1)
          | Raise _ => (inl "Collector not configured"%string, c1)
          | Ok consent =>
              (inr (pending_result
                      [ ("consent_handle",
                         match consent_handle consent with
                         | Some h => JStr h
                         | None => JNull
                         end);
                        ("consent_id", consent_id consent);
                        ("consent_url", consent_url consent);
                        ("consent_status", JStr (status_value (status consent)));
                        ("message",
                         JStr "Consent request created. User must approve before data collection.") ]),
               c1)
          end
      end
  end.

(** A reply to the creation that the collector takes as an acceptance. *)
Definition accepted (reply : Reply) : bool :=
  match reply with
  | NetResponse code _ (inr (JObj _)) => code =? 200
  | _ => false
  end.
End Configuration.

(** The route that starts the flow. *)
Module ConsentRoutes.
Section ConsentRoutes.
Context `{RT : PyRuntime}.

Local Abbreviation json := (Json pyfloat).

Record AAConsentResponse : Type := {
  aa_success : bool;
  aa_consent_handle : string;
  aa_consent_id : json;
  aa_consent_url : json;
  aa_status : string;
  aa_message : string;
  aa_expires_at : Z
}.

(** [POST /initiate-aa-flow], on the fields of a validated
    [AAConsentRequest]. *)
Definition initiate_aa_flow (net : Network) (c : Collector) (uid customer_mobile : string)
    (customer_name : option string) (fi : list string) (purpose_text : string)
    (days : Z) (handle : string) (now : Z)
    : (Routes.HTTPException + AAConsentResponse) * Collector :=
  let '(res, c1) :=
    create_consent_request net c uid (Some fi) purpose_text days
      (Some customer_mobile) customer_name handle now in
  let internal (e : string) :=
    inl (Routes.mkHTTPException 500 (JStr ("Internal server error: " +:+ e))) in
  match res with
  | Raise OverflowError => (internal (overflow_text now days), c1)
  | Raise _ => (internal "Collector not configured", c1)
  | Ok consent =>
      if bool_decide (status consent = DENIED)
      then (inl (Routes.mkHTTPException 400 (JStr "Failed to create consent request")), c1)
      else
        match consent_handle consent,
              validate_optional_str (consent_id consent),
              validate_optional_str (consent_url consent) with
        | Some h, inr cid, inr curl =>
            (inr {| aa_success := true; aa_consent_handle := h;
                    aa_consent_id := cid; aa_consent_url := curl;
                    aa_status := status_value (status consent);
                    aa_message :=
                      "Consent request created successfully. Please redirect user to consent_url.";
                    aa_expires_at := expires_at consent |}, c1)
        | None, _, _ => (internal "consent_handle", c1)
        | _, inl e, _ => (internal e, c1)
        | _, _, inl e => (internal e, c1)
        end
  end.
End ConsentRoutes.
End ConsentRoutes.

(** ** The device data collector *)

Module Device.
Section Device.
Context `{RT : PyRuntime}.

Local Abbreviation json := (Json pyfloat).
Local Abbreviation cell := (Cell pyfloat).

(** [json.loads]: the text of the error or the value. *)
Variable json_loads : string → string + json.
(** [str(e)] of an exception raised while the data is processed. *)
Variable exception_text : PyExn → string.
(** [df[col] = v] on a frame of one row when [v] is a list or a dict: the
    cell pandas stores, or the exception it raises. *)
Variable pd_assign : json → Exc cell.

Record DeviceDataCollector : Type := {
  dev_is_configured : bool;
  supported_data_types : json;
  data_validation_rules : json;
  (** set by [configure], absent before *)
  privacy_settings : option json;
  last_collection_time : option Z
}.

(** The collector as [__init__] leaves it. *)
Definition initial : DeviceDataCollector :=
  {| dev_is_configured := false;
     supported_data_types :=
       JArr [ JStr "device_info"; JStr "app_usage"; JStr "network_behavior";
              JStr "location_data"; JStr "sensor_data" ];
     data_validation_rules := JObj [];
     privacy_settings := None;
     last_collection_time := None |}.

(** [DeviceDataCollector.configure]. *)
Definition configure (config : json) (d : DeviceDataCollector) : bool * DeviceDataCollector :=
  match config with
  | JObj kv =>
      (true,
       {| dev_is_configured := true;
          supported_data_types := dict_get kv "supported_data_types" (supported_data_types d);
          data_validation_rules := dict_get kv "validation_rules" (JObj []);
          privacy_settings := Some (dict_get kv "privacy_settings" (JObj []));
          last_collection_time := last_collection_time d |})
  | _ => (false, d)
  end.

Fixpoint is_prefix (s t : string) : bool :=
  match s, t with
  | EmptyString, _ => true
  | String a s', String b t' => Ascii.eqb a b && is_prefix s' t'
  | String _ _, EmptyString => false
  end.

Fixpoint is_substring (s t : string) : bool :=
  is_prefix s t
  || match t with
     | EmptyString => false
     | String _ t' => is_substring s t'
     end.

(** [s in x] for a string [s]: a key of a dict, an element of a list, a
    part of a string. *)
Definition contains_str (x : json) (s : string) : Exc bool :=
  match x with
  | JObj kv => Ok (match assoc_get kv s with Some _ => true | None => false end)
  | JArr l => Ok (existsb (λ v, match v with JStr t => String.eqb t s | _ => false end) l)
  | JStr t => Ok (is_substring s t)
  | _ => Raise TypeError
  end.

(** [len(x)]. *)
Definition py_len (x : json) : Exc Z :=
  match x with
  | JArr l => Ok (Z.of_nat (length l))
  | JObj kv => Ok (Z.of_nat (length kv))
  | JStr s => Ok (Z.of_nat (String.length s))
  | _ => Raise TypeError
  end.

Definition hashable (x : json) : bool :=
  match x with
  | JArr _ | JObj _ => false
  | _ => true
  end.

(** [set(self.supported_data_types + ["user_id", "timestamp"])] can be
    built: the attribute is a list and its elements can be hashed. *)
Definition supported_types (d : DeviceDataCollector) : Exc unit :=
  match supported_data_types d with
  | JArr l => if forallb hashable l then Ok tt else Raise TypeError
  | _ => Raise TypeError
  end.

(** [_validate_device_data]: the one required field; what is not supported
    is only logged. *)
Definition _validate_device_data (d : DeviceDataCollector) (data : json) : Exc bool :=
  present <- contains_str data "user_id" ;;
  if negb present then Ok false
  else
    _ <- supported_types d ;;
    match data with
    | JObj _ => Ok true
    | _ => Raise AttributeError
    end.

Definition _process_device_info (device_info : json) : Exc (list (string * json)) :=
  match device_info with
  | JObj kv =>
      Ok [ ("device_model", dict_get kv "model" (JStr "Unknown"));
           ("operating_system", dict_get kv "os" (JStr "Unknown"));
           ("os_version", dict_get kv "os_version" (JStr "Unknown"));
           ("screen_resolution", dict_get kv "screen_resolution" (JStr "Unknown"));
           ("storage_capacity", dict_get kv "storage_gb" (JInt 0));
           ("ram_capacity", dict_get kv "ram_gb" (JInt 0)) ]
  | _ => Raise AttributeError
  end.

Definition _process_app_usage (app_usage : json) : Exc (list (string * json)) :=
  match app_usage with
  | JObj kv =>
      n <- py_len (dict_get kv "installed_apps" (JArr [])) ;;
      Ok [ ("installed_apps_count", JInt n);
           ("daily_screen_time_minutes", dict_get kv "screen_time_minutes" (JInt 0));
           ("app_usage_sessions", dict_get kv "sessions_count" (JInt 0));
           ("most_used_app", dict_get kv "top_app" (JStr "Unknown"));
           ("apps_opened_today", dict_get kv "apps_opened_today" (JInt 0)) ]
  | _ => Raise AttributeError
  end.

Definition _process_network_behavior (network_data : json) : Exc (list (string * json)) :=
  match network_data with
  | JObj kv =>
      n <- py_len (dict_get kv "wifi_networks" (JArr [])) ;;
      Ok [ ("daily_data_usage_mb", dict_get kv "data_usage_mb" (JInt 0));
           ("wifi_usage_mb", dict_get kv "wifi_usage_mb" (JInt 0));
           ("cellular_usage_mb", dict_get kv "cellular_usage_mb" (JInt 0));
           ("connected_networks_count", JInt n);
           ("data_saver_enabled", dict_get kv "data_saver" (JBool false)) ]
  | _ => Raise AttributeError
  end.

Definition _process_location_data (location_data : json) : Exc (list (string * json)) :=
  match location_data with
  | JObj kv =>
      n <- py_len (dict_get kv "locations" (JArr [])) ;;
      Ok [ ("location_points_count", JInt n);
           ("location_accuracy_avg", dict_get kv "avg_accuracy" (JInt 0));
           ("places_visited_today", dict_get kv "places_visited" (JInt 0));
           ("distance_traveled_km", dict_get kv "distance_km" (JInt 0)) ]
  | _ => Raise AttributeError
  end.

(** [if key in data: processed_data.update(process(data[key]))]. *)
Definition add_section (kv : list (string * json)) (key : string)
    (process : json → Exc (list (string * json)))
    (processed_data : list (string * json)) : Exc (list (string * json)) :=
  match assoc_get kv key with
  | None => Ok processed_data
  | Some section =>
      fields <- process section ;;
      Ok (dict_update processed_data fields)
  end.

(** [df[col] = cell] on every row. *)
Definition frame_set (col : string) (x : cell) (df : DataFrame) : DataFrame :=
  match index_of col (df_columns df) with
  | Some i =>
      {| df_columns := df_columns df; df_rows := (λ row, <[i := x]> row) <$> df_rows df |}
  | None =>
      {| df_columns := df_columns df ++ [col];
         df_rows := (λ row, row ++ [x]) <$> df_rows df |}
  end.

(** The cell a column of the one-row frame takes from a value. *)
Definition cell_of (v : json) : Exc cell :=
  match v with
  | JArr _ | JObj _ => pd_assign v
  | _ => Ok (CVal v)
  end.

Definition failure (msg : string) : CollectionResult :=
  {| success := false; data := None; metadata := []; error_message := Some msg;
     records_collected := 0%nat; collection_timestamp := None |}.

(** What the [try] of [process_device_data] returns once the data is
    parsed: a result and whether the collection is to be logged. *)
Definition process_parsed (d : DeviceDataCollector) (data : json) (now : Z)
    : Exc (CollectionResult * bool) :=
  valid <- _validate_device_data d data ;;
  if negb valid then Ok (failure "Invalid data structure", false)
  else
    user_id <- py_get data "user_id" JNull ;;
    if negb (truthy user_id) then Ok (failure "Missing user_id in data", false)
    else
      match data with
      | JObj kv =>
          p1 <- add_section kv "device_info" _process_device_info [] ;;
          p2 <- add_section kv "app_usage" _process_app_usage p1 ;;
          p3 <- add_section kv "network_behavior" _process_network_behavior p2 ;;
          processed_data <- add_section kv "location_data" _process_location_data p3 ;;
          user_cell <- cell_of user_id ;;
          let df :=
            frame_set "collection_timestamp" (CTimestamp now)
              (frame_set "user_id" user_cell (frame_of_records [processed_data])) in
          Ok ({| success := true; data := Some df;
                 metadata :=
                   [ ("user_id", user_id);
                     ("data_source", JStr "device_data");
                     ("data_types", JArr ((λ p, JStr (fst p)) <$> kv));
                     ("collection_method", JStr "mobile_app") ];
                 error_message := None; records_collected := 1%nat;
                 collection_timestamp := Some now |}, true)
      | _ => Raise AttributeError
      end.

(** [process_device_data]: a string is parsed first; any exception becomes a
    failed result that carries its text; a success is logged, which sets
    the time of the last collection. *)
Definition process_device_data (d : DeviceDataCollector) (data : json) (now : Z)
    : CollectionResult * DeviceDataCollector :=
  let parsed : string + json :=
    match data with
    | JStr s => json_loads s
    | _ => inr data
    end in
  match parsed with
  | inl e => (failure e, d)
  | inr value =>
      match process_parsed d value now with
      | Raise e => (failure (exception_text e), d)
      | Ok (r, false) => (r, d)
      | Ok (r, true) =>
          (r, {| dev_is_configured := dev_is_configured d;
                 supported_data_types := supported_data_types d;
                 data_validation_rules := data_validation_rules d;
                 privacy_settings := privacy_settings d;
                 last_collection_time := Some now |})
      end
  end.

(** [DeviceDataCollector.collect_data]: [device_data] is the keyword
    argument, [JNull] when absent; a dict gets the caller's [user_id]. *)
Definition collect_data (d : DeviceDataCollector) (uid : string) (device_data : json) (now : Z)
    : CollectionResult * DeviceDataCollector :=
  if negb (truthy device_data) then (failure "No device data provided", d)
  else
    match device_data with
    | JObj kv => process_device_data d (JObj (dict_set kv "user_id" (JStr uid))) now
    | _ => process_device_data d device_data now
    end.
End Device.
End Device.

(** Values to evaluate the further definitions on. *)
Module Scenario.
#[local] Existing Instance demo_runtime.

(** The network of a whole journey: the creation is accepted as R1, the
    status is reported as active, the request for data opens session S1. *)
Definition net_journey : Network :=
  Demo.net_script [ JObj [("id", JStr "R1"); ("url", JStr "https://consent.example/R1")];
                    Demo.remote_status "active";
                    JObj [("sessionId", JStr "S1")] ].

(** The status is ACTIVE at the first check and PAUSED at the second. *)
Definition net_flapping : Network :=
  Demo.net_script [Demo.remote_status "ACTIVE"; Demo.remote_status "PAUSED"].

Definition no_kwargs : CollectArgs :=
  {| kw_consent_handle := None; kw_session_id := None; kw_fi_types := None;
     kw_purpose := None; kw_duration_days := None; kw_customer_mobile := None;
     kw_customer_name := None |}.

Definition credentials : Credentials :=
  {| client_secret := JStr "test_client_secret"; consent_timeout := JInt 300;
     session_headers := [] |}.

(** A parser that refuses every text, exception texts by kind, and a pandas
    that refuses every list or dict as a cell. *)
Definition json_loads (_ : string) : string + Json Z := inl "Expecting value"%string.

Definition exception_text (e : PyExn) : string :=
  match e with
  | AttributeError => "AttributeError"
  | TypeError => "TypeError"
  | ValueError => "ValueError"
  | OverflowError => "OverflowError"
  | PandasError => "PandasError"
  end.

Definition pd_assign (_ : Json Z) : Exc (Cell Z) := Raise ValueError.

(** Device data with a key no collector knows. *)
Definition device_data : list (string * Json Z) :=
  [("user_id", JStr "user-42"); ("battery", JObj [("level", JInt 80)])].
End Scenario.

(** * Properties *)

Section Reconciliation.
Context `{RT : PyRuntime}.

Local Abbreviation json := (Json pyfloat).

Lemma lookup_update_consent (c : Collector) (h : string) (r : ConsentRequest) :
  active_consents (update_consent h r c) !! h = Some r.
Proof. cbn. apply lookup_insert_eq. Qed.

Lemma net_log_update_consent (c : Collector) (h : string) (r : ConsentRequest) :
  net_log (update_consent h r c) = net_log c.
Proof. reflexivity. Qed.

Lemma status_mapping_get_cases (s : string) :
  (s = "ACTIVE"%string ∧ status_mapping_get s = GRANTED)
  ∨ (s ≠ "ACTIVE"%string ∧ status_mapping_get s ≠ GRANTED
     ∧ (s ∉ ["ACTIVE"; "PAUSED"; "REVOKED"; "EXPIRED"; "PENDING"; "REJECTED"]%string
        → status_mapping_get s = PENDING)).
Proof.
  unfold status_mapping_get, status_mapping. cbn [assoc_get].
  destruct (String.eqb_spec "ACTIVE" s) as [E1|N1]; [left; split; [by subst | done]|].
  right. split; [congruence|].
  destruct (String.eqb_spec "PAUSED" s) as [E|N2]; [split; [done | intros Hout; done]|].
  destruct (String.eqb_spec "REVOKED" s) as [E|N3].
  { split; [done|]. intros Hout. exfalso. apply Hout. subst. set_solver. }
  destruct (String.eqb_spec "EXPIRED" s) as [E|N4].
  { split; [done|]. intros Hout. exfalso. apply Hout. subst. set_solver. }
  destruct (String.eqb_spec "PENDING" s) as [E|N5]; [split; [done | intros Hout; done]|].
  destruct (String.eqb_spec "REJECTED" s) as [E|N6].
  { split; [done|]. intros Hout. exfalso. apply Hout. subst. set_solver. }
  split; done.
Qed.

(** C9, as the code has it.  When the status read is answered 200 with a
    JSON object, [get_consent_status] looks up the upper-cased remote status
    ([status_data.get("status", "").upper()]), not the remote string itself:
    for a remote string [s] it returns and stores
    [status_mapping.get(s.upper(), PENDING)], which is [PENDING] whenever
    [s.upper()] is outside ACTIVE, PAUSED, REVOKED, EXPIRED, PENDING,
    REJECTED, and [GRANTED] exactly when [s.upper()] is ["ACTIVE"].  A
    remote status that is not a string makes [.upper()] raise: the check
    returns [DENIED] and leaves the store as it was. *)
Theorem remote_status_fails_closed (net : Network) (c : Collector) (h : string)
    (consent : ConsentRequest) (now : Z) (text : string) (kv : list (string * json)) :
  active_consents c !! h = Some consent →
  now ≤ expires_at consent →
  truthy (consent_id consent) = true →
  net (length (net_log c))
      (GET (api_base_url c +:+ "/Consent/handle/" +:+ format_value (consent_id consent)))
    = NetResponse 200 text (inr (JObj kv)) →
  match dict_get kv "status" (JStr "") with
  | JStr s =>
      fst (get_consent_status net c h now) = status_mapping_get (str_upper s)
      ∧ stored_status (snd (get_consent_status net c h now)) h
        = Some (status_mapping_get (str_upper s))
      ∧ (str_upper s ∉ ["ACTIVE"; "PAUSED"; "REVOKED"; "EXPIRED"; "PENDING"; "REJECTED"]%string
         → fst (get_consent_status net c h now) = PENDING)
      ∧ (fst (get_consent_status net c h now) = GRANTED ↔ str_upper s = "ACTIVE"%string)
  | _ =>
      fst (get_consent_status net c h now) = DENIED
      ∧ active_consents (snd (get_consent_status net c h now)) = active_consents c
  end.
Proof.
  intros Hl Hnow Hid Hnet. unfold get_consent_status, stored_status. rewrite Hl.
  destruct (Z.ltb_spec (expires_at consent) now) as [Hlt|_]; [lia|].
  rewrite Hid. cbn [negb session_send]. rewrite Hnet. cbn [Z.eqb Pos.eqb].
  destruct (dict_get kv "status" (JStr "")) as [ | | | | s | | ]; try done.
  cbn [fst snd]. rewrite lookup_update_consent. cbn [fmap option_fmap option_map status
    set_status].
  split; [done|]. split; [done|].
  destruct (status_mapping_get_cases (str_upper s)) as [[Hu Hg] | (Hne & Hng & Hout)].
  - split; [intros Hn; exfalso; apply Hn; rewrite Hu; set_solver | done].
  - split; [exact Hout | split; intros; contradiction].
Qed.

(** What [get_consent_status] returns is [GRANTED] only when the status it
    used as key, the upper-cased remote string, is ["ACTIVE"], or when
    [GRANTED] was the cached status and nothing was mapped. *)
Lemma get_consent_status_granted (net : Network) (c : Collector) (h : string) (now : Z) :
  fst (get_consent_status net c h now) = GRANTED →
  (∃ consent, active_consents c !! h = Some consent ∧ status consent = GRANTED)
  ∨ (∃ code text kv s,
        net (length (net_log c))
            (GET (api_base_url c +:+ "/Consent/handle/" +:+
                  match active_consents c !! h with
                  | Some consent => format_value (consent_id consent)
                  | None => ""
                  end)) = NetResponse code text (inr (JObj kv))
        ∧ dict_get kv "status" (JStr "") = JStr s
        ∧ str_upper s = "ACTIVE"%string).
Proof.
  unfold get_consent_status.
  destruct (active_consents c !! h) as [consent|] eqn:Hl; [|discriminate].
  destruct (expires_at consent <? now); [discriminate|].
  destruct (negb (truthy (consent_id consent))).
  { cbn. intros Hs. left. eauto. }
  cbn.
  destruct (net _ _) as [msg | code text body] eqn:Hnet; [discriminate|].
  destruct (code =? 200).
  - destruct body as [e | [ | | | | | | kv]]; try discriminate.
    destruct (dict_get kv "status" (JStr "")) as [ | | | | s | | ] eqn:Hs; try discriminate.
    cbn. intros Hm. right. exists code, text, kv, s. repeat split; try assumption.
    destruct (status_mapping_get_cases (str_upper s)) as [[Hu _] | (_ & Hng & _)];
      [exact Hu | contradiction].
  - cbn. intros Hs. left. eauto.
Qed.
End Reconciliation.

Section ReconciliationExamples.
#[local] Existing Instance demo_runtime.

Lemma remote_status_fails_closed_witness :
  fst (get_consent_status (Demo.net_ok (Demo.remote_status "approved"))
         (Demo.tracking GRANTED (JStr "R1") 100) "H1" 50)
  = status_mapping_get (str_upper "approved")
  ∧ stored_status
      (snd (get_consent_status (Demo.net_ok (Demo.remote_status "approved"))
              (Demo.tracking GRANTED (JStr "R1") 100) "H1" 50)) "H1"
    = Some (status_mapping_get (str_upper "approved"))
  ∧ (str_upper "approved"
       ∉ ["ACTIVE"; "PAUSED"; "REVOKED"; "EXPIRED"; "PENDING"; "REJECTED"]%string
     → fst (get_consent_status (Demo.net_ok (Demo.remote_status "approved"))
              (Demo.tracking GRANTED (JStr "R1") 100) "H1" 50) = PENDING)
  ∧ (fst (get_consent_status (Demo.net_ok (Demo.remote_status "approved"))
            (Demo.tracking GRANTED (JStr "R1") 100) "H1" 50) = GRANTED
     ↔ str_upper "approved" = "ACTIVE"%string).
Proof.
  apply (remote_status_fails_closed (Demo.net_ok (Demo.remote_status "approved"))
           (Demo.tracking GRANTED (JStr "R1") 100) "H1"
           (Demo.consent GRANTED (JStr "R1") 100) 50 "" [("status", JStr "approved")]);
    [reflexivity | cbn; lia | reflexivity | reflexivity].
Defined.

(** C9 fails on the code as worded, for the remote string itself.  The
    strings ["active"] and ["Active"] are not ["ACTIVE"] and are outside the
    vocabulary, and a status check that is answered with either returns and
    stores [GRANTED]. *)
Lemma lowercase_active_is_granted :
  ("active"%string ≠ "ACTIVE"%string)
  ∧ ("active"%string
       ∉ ["ACTIVE"; "PAUSED"; "REVOKED"; "EXPIRED"; "PENDING"; "REJECTED"]%string)
  ∧ fst (get_consent_status (Demo.net_ok (Demo.remote_status "active"))
           (Demo.tracking PENDING (JStr "R1") 100) "H1" 50) = GRANTED
  ∧ stored_status
      (snd (get_consent_status (Demo.net_ok (Demo.remote_status "active"))
              (Demo.tracking PENDING (JStr "R1") 100) "H1" 50)) "H1" = Some GRANTED
  ∧ fst (get_consent_status (Demo.net_ok (Demo.remote_status "Active"))
           (Demo.tracking PENDING (JStr "R1") 100) "H1" 50) = GRANTED.
Proof.
  split; [discriminate|]. split; [|repeat split; reflexivity].
  rewrite !elem_of_cons. intros Hin.
  repeat (destruct Hin as [Hin|Hin]; [discriminate|]). by apply elem_of_nil in Hin.
Qed.
End ReconciliationExamples.

Section Expiry.
Context `{RT : PyRuntime}.

(** C2: a stored consent whose [expires_at] is in the past is reported and
    recorded as [EXPIRED], never as [GRANTED], and no request is sent,
    whatever the network would answer. *)
Theorem expired_consent_reports_expired (net : Network) (c : Collector) (h : string)
    (consent : ConsentRequest) (now : Z) :
  active_consents c !! h = Some consent →
  expires_at consent < now →
  fst (get_consent_status net c h now) = EXPIRED
  ∧ fst (get_consent_status net c h now) ≠ GRANTED
  ∧ stored_status (snd (get_consent_status net c h now)) h = Some EXPIRED
  ∧ net_log (snd (get_consent_status net c h now)) = net_log c.
Proof.
  intros Hl Hexp. unfold get_consent_status. rewrite Hl.
  destruct (Z.ltb_spec (expires_at consent) now) as [_|Hge]; [|lia].
  cbn [fst snd]. repeat split; try done.
  unfold stored_status. by rewrite lookup_update_consent.
Qed.

(** C7, as the code has it.  No request is sent for a stored consent that is
    past [expires_at] or has no remote [consent_id]; the first is answered
    [EXPIRED], the second with the cached status.  Every other stored
    consent, one that has a remote id and is not past expiry, is queried
    again, whatever its cached status: the read of its remote status is the
    one request sent, for a cached [DENIED], [EXPIRED] or [REVOKED] as for
    any other. *)
Theorem status_answered_locally (net : Network) (c : Collector) (h : string)
    (consent : ConsentRequest) (now : Z) :
  active_consents c !! h = Some consent →
  (expires_at consent < now ∨ truthy (consent_id consent) = false →
   net_log (snd (get_consent_status net c h now)) = net_log c
   ∧ fst (get_consent_status net c h now)
     = (if expires_at consent <? now then EXPIRED else status consent))
  ∧ (now ≤ expires_at consent → truthy (consent_id consent) = true →
     net_log (snd (get_consent_status net c h now))
     = net_log c
       ++ [GET (api_base_url c +:+ "/Consent/handle/" +:+ format_value (consent_id consent))]).
Proof.
  intros Hl. unfold get_consent_status. rewrite Hl. split.
  - intros Hguard.
    destruct (Z.ltb_spec (expires_at consent) now) as [Hlt|Hge]; [done|].
    destruct Hguard as [Hlt | Hid]; [lia|]. by rewrite Hid.
  - intros Hnow Hid.
    destruct (Z.ltb_spec (expires_at consent) now) as [Hlt|_]; [lia|].
    rewrite Hid. cbn.
    destruct (net _ _) as [msg | code text body]; [done|].
    destruct (code =? 200); [|done].
    destruct body as [e | [ | | | | | | kv]]; try done.
    by destruct (dict_get kv "status" (JStr "")).
Qed.

(** C6, as the code has it: when the status request raises, the stored
    consents are left as they were and the caller is told [DENIED]. *)
Theorem transport_error_keeps_cache (net : Network) (c : Collector) (h : string)
    (consent : ConsentRequest) (now : Z) (msg : string) :
  active_consents c !! h = Some consent →
  now ≤ expires_at consent →
  truthy (consent_id consent) = true →
  net (length (net_log c))
      (GET (api_base_url c +:+ "/Consent/handle/" +:+ format_value (consent_id consent)))
    = NetRaise msg →
  active_consents (snd (get_consent_status net c h now)) = active_consents c
  ∧ fst (get_consent_status net c h now) = DENIED.
Proof.
  intros Hl Hnow Hid Hnet. unfold get_consent_status. rewrite Hl.
  destruct (Z.ltb_spec (expires_at consent) now) as [Hlt|_]; [lia|].
  rewrite Hid. cbn. by rewrite Hnet.
Qed.
End Expiry.

Section ExpiryExamples.
#[local] Existing Instance demo_runtime.

Lemma expired_consent_reports_expired_witness :
  fst (get_consent_status (Demo.net_ok (Demo.remote_status "ACTIVE"))
         (Demo.tracking PENDING (JStr "R1") 100) "H1" 101) = EXPIRED
  ∧ fst (get_consent_status (Demo.net_ok (Demo.remote_status "ACTIVE"))
         (Demo.tracking PENDING (JStr "R1") 100) "H1" 101) ≠ GRANTED
  ∧ stored_status
      (snd (get_consent_status (Demo.net_ok (Demo.remote_status "ACTIVE"))
              (Demo.tracking PENDING (JStr "R1") 100) "H1" 101)) "H1" = Some EXPIRED
  ∧ net_log
      (snd (get_consent_status (Demo.net_ok (Demo.remote_status "ACTIVE"))
              (Demo.tracking PENDING (JStr "R1") 100) "H1" 101)) = [].
Proof.
  apply (expired_consent_reports_expired (Demo.net_ok (Demo.remote_status "ACTIVE"))
           (Demo.tracking PENDING (JStr "R1") 100) "H1"
           (Demo.consent PENDING (JStr "R1") 100) 101);
    [reflexivity | cbn; lia].
Defined.

Lemma status_answered_locally_witness :
  (net_log (snd (get_consent_status Demo.net_down
                   (Demo.tracking DENIED JNull 100) "H1" 50)) = []
   ∧ fst (get_consent_status Demo.net_down (Demo.tracking DENIED JNull 100) "H1" 50)
     = DENIED)
  ∧ net_log (snd (get_consent_status Demo.net_down
                    (Demo.tracking DENIED (JStr "R1") 100) "H1" 50))
    = [GET "https://fiu-uat.setu.co/Consent/handle/R1"].
Proof.
  split.
  - apply (proj1 (status_answered_locally Demo.net_down (Demo.tracking DENIED JNull 100)
                    "H1" (Demo.consent DENIED JNull 100) 50 eq_refl)).
    right; reflexivity.
  - apply (proj2 (status_answered_locally Demo.net_down
                    (Demo.tracking DENIED (JStr "R1") 100)
                    "H1" (Demo.consent DENIED (JStr "R1") 100) 50 eq_refl));
      [cbn; lia | reflexivity].
Defined.

(** C7 fails on the code: a consent cached as [REVOKED] that has a remote id
    is queried again, and the answer replaces the cached status. *)
Lemma terminal_status_is_requeried :
  stored_status (Demo.tracking REVOKED (JStr "R1") 100) "H1" = Some REVOKED
  ∧ fst (get_consent_status (Demo.net_ok (Demo.remote_status "ACTIVE"))
           (Demo.tracking REVOKED (JStr "R1") 100) "H1" 50) = GRANTED
  ∧ net_log (snd (get_consent_status (Demo.net_ok (Demo.remote_status "ACTIVE"))
                    (Demo.tracking REVOKED (JStr "R1") 100) "H1" 50))
    = [GET "https://fiu-uat.setu.co/Consent/handle/R1"].
Proof. repeat split; reflexivity. Qed.

Lemma transport_error_keeps_cache_witness :
  active_consents (snd (get_consent_status Demo.net_down
                          (Demo.tracking PENDING (JStr "R1") 100) "H1" 50))
    = active_consents (Demo.tracking PENDING (JStr "R1") 100)
  ∧ fst (get_consent_status Demo.net_down
           (Demo.tracking PENDING (JStr "R1") 100) "H1" 50) = DENIED.
Proof.
  apply (transport_error_keeps_cache Demo.net_down
           (Demo.tracking PENDING (JStr "R1") 100) "H1"
           (Demo.consent PENDING (JStr "R1") 100) 50 "Connection refused");
    [reflexivity | cbn; lia | reflexivity | reflexivity].
Defined.

(** C6 fails on the code: with the network down, a consent that is cached as
    [PENDING] is reported as [DENIED]. *)
Lemma network_down_reports_denied :
  stored_status (Demo.tracking PENDING (JStr "R1") 100) "H1" = Some PENDING
  ∧ Demo.net_down 0%nat (GET "https://fiu-uat.setu.co/Consent/handle/R1")
    = NetRaise "Connection refused"
  ∧ fst (get_consent_status Demo.net_down
           (Demo.tracking PENDING (JStr "R1") 100) "H1" 50) = DENIED.
Proof. repeat split; reflexivity. Qed.
End ExpiryExamples.

Section Lifecycle.
Context `{RT : PyRuntime}.

Lemma set_status_same (consent : ConsentRequest) :
  set_status (status consent) consent = consent.
Proof. by destruct consent. Qed.

Lemma set_status_twice (s s' : ConsentStatus) (consent : ConsentRequest) :
  set_status s' (set_status s consent) = set_status s' consent.
Proof. reflexivity. Qed.

Lemma get_consent_status_other (net : Network) (c : Collector) (h' h : string) (now : Z) :
  h' ≠ h →
  active_consents (snd (get_consent_status net c h' now)) !! h = active_consents c !! h.
Proof.
  intros Hne. unfold get_consent_status.
  destruct (active_consents c !! h') as [consent|]; [|done].
  destruct (expires_at consent <? now); [cbn; by rewrite lookup_insert_ne|].
  destruct (negb (truthy (consent_id consent))); [done|].
  cbn. destruct (net _ _) as [msg | code text body]; [done|].
  destruct (code =? 200); [|done].
  destruct body as [e | [ | | | | | | kv]]; try done.
  destruct (dict_get kv "status" (JStr "")); try done.
  cbn. by rewrite lookup_insert_ne.
Qed.

Lemma get_consent_status_same (net : Network) (c : Collector) (h : string)
    (consent : ConsentRequest) (now : Z) :
  active_consents c !! h = Some consent →
  ∃ s', active_consents (snd (get_consent_status net c h now)) !! h
          = Some (set_status s' consent)
        ∧ reconciled net c consent now s'.
Proof.
  intros Hl. unfold get_consent_status, reconciled, reported_status, status_url.
  rewrite Hl.
  assert (Hkeep : ∀ c', active_consents c' = active_consents c →
            ∃ s', active_consents c' !! h = Some (set_status s' consent)
                  ∧ s' = status consent).
  { intros c' ->. exists (status consent). by rewrite set_status_same. }
  destruct (expires_at consent <? now).
  { exists EXPIRED. cbn. by rewrite lookup_insert_eq. }
  destruct (truthy (consent_id consent)); cbn [negb]; [|by apply Hkeep].
  cbn [session_send].
  destruct (net _ _) as [msg | code text body]; [by apply Hkeep|].
  destruct body as [e | [ | | | | | | kv]];
    try (destruct (code =? 200); by apply Hkeep).
  destruct (code =? 200); [|by apply Hkeep].
  destruct (dict_get kv "status" (JStr "")) as [ | | | | s | | ]; try by apply Hkeep.
  exists (status_mapping_get (str_upper s)). cbn. by rewrite lookup_insert_eq.
Qed.

Lemma request_fi_data_consents (net : Network) (c : Collector) (h : string) (now : Z) :
  active_consents (snd (request_fi_data net c h now))
  = active_consents (snd (get_consent_status net c h now)).
Proof.
  unfold request_fi_data.
  destruct (active_consents c !! h) as [consent|] eqn:Hl.
  - destruct (get_consent_status net c h now) as [st c1].
    destruct (negb (bool_decide (st = GRANTED))); [done|].
    cbn. destruct (net _ _) as [msg | code text body]; [done|].
    destruct (code =? 200); [|done].
    by destruct body as [e | [ | | | | | | kv]].
  - unfold get_consent_status. by rewrite Hl.
Qed.

Lemma create_consent_request_other (net : Network) (c : Collector) (uid : string)
    (fi_arg : option (list string)) (purpose_text : string) (days : Z)
    (mobile name : option string) (handle : string) (now : Z) (h : string) :
  handle ≠ h →
  active_consents
    (snd (create_consent_request net c uid fi_arg purpose_text days mobile name handle now)) !! h
  = active_consents c !! h.
Proof.
  intros Hne. unfold create_consent_request.
  destruct (negb (is_configured c)); [done|].
  destruct (negb (duration_in_range now days)); [done|].
  cbn. destruct (net _ _) as [msg | code text body]; [done|].
  destruct (code =? 200); [|cbn; by rewrite lookup_insert_ne].
  destruct body as [e | [ | | | | | | kv]]; try done.
  cbn. by rewrite lookup_insert_ne.
Qed.

Lemma fetch_fi_data_consents (net : Network) (c : Collector) (session_id : string) (now : Z) :
  active_consents (snd (fetch_fi_data net c session_id now)) = active_consents c.
Proof.
  unfold fetch_fi_data. cbn.
  destruct (net _ _) as [msg | code text body]; [done|].
  destruct (code =? 200); [|done].
  destruct body as [e | payload]; [done|].
  by destruct payload.
Qed.

(** One operation on a tracked consent. *)
Lemma run_op_tracked (net : Network) (c : Collector) (op : Op) (h : string)
    (consent : ConsentRequest) :
  active_consents c !! h = Some consent →
  creates op ≠ Some h →
  ∃ s', active_consents (run_op net c op) !! h = Some (set_status s' consent)
        ∧ match polls op h with
          | Some now => reconciled net c consent now s'
          | None => s' = status consent
          end.
Proof.
  intros Hl Hfresh.
  assert (Hkeep : ∀ c', active_consents c' !! h = active_consents c !! h →
            ∃ s', active_consents c' !! h = Some (set_status s' consent)
                  ∧ s' = status consent).
  { intros c' ->. exists (status consent). by rewrite set_status_same. }
  assert (Hpoll : ∀ handle now,
            ∃ s', active_consents (snd (get_consent_status net c handle now)) !! h
                    = Some (set_status s' consent)
                  ∧ match (if String.eqb handle h then Some now else None) with
                    | Some now => reconciled net c consent now s'
                    | None => s' = status consent
                    end).
  { intros handle now. destruct (String.eqb_spec handle h) as [->|Hne].
    - by apply get_consent_status_same.
    - apply Hkeep. by apply get_consent_status_other. }
  destruct op as [uid fi_arg purpose_text days mobile name handle now
                 | handle now | handle now | session_id now | request];
    cbn [run_op polls].
  - apply Hkeep, create_consent_request_other. cbn in Hfresh. congruence.
  - apply Hpoll.
  - rewrite request_fi_data_consents. apply Hpoll.
  - apply Hkeep. by rewrite fetch_fi_data_consents.
  - by apply Hkeep.
Qed.

Lemma run_ops_snoc (net : Network) (ops : list Op) (op : Op) (c : Collector) :
  run_ops net (ops ++ [op]) c = run_op net (run_ops net ops c) op.
Proof. unfold run_ops. by rewrite fold_left_app. Qed.

(** Along any sequence of operations a tracked consent stays tracked and
    only its status changes. *)
Lemma run_ops_tracked (net : Network) (ops : list Op) (c : Collector) (h : string)
    (consent : ConsentRequest) :
  active_consents c !! h = Some consent →
  Forall (λ o, creates o ≠ Some h) ops →
  ∃ s, active_consents (run_ops net ops c) !! h = Some (set_status s consent).
Proof.
  intros Hl. induction ops as [|op ops IH] using rev_ind; intros Hfresh.
  - exists (status consent). by rewrite set_status_same.
  - apply Forall_app in Hfresh as [Hops Hop]. apply Forall_inv in Hop.
    destruct (IH Hops) as (s & Hs). rewrite run_ops_snoc.
    destruct (run_op_tracked net _ op h _ Hs Hop) as (s' & Hs' & _).
    exists s'. by rewrite Hs'.
Qed.

End Lifecycle.

Section LifecycleExamples.
#[local] Existing Instance demo_runtime.


End LifecycleExamples.

Section ConsentGate.
Context `{RT : PyRuntime}.

(** The requests of a status check, exactly. *)
Lemma get_consent_status_log (net : Network) (c : Collector) (h : string) (now : Z) :
  net_log (snd (get_consent_status net c h now)) = net_log c ++ status_requests c h now.
Proof.
  unfold get_consent_status, status_requests, status_url.
  destruct (active_consents c !! h) as [consent|]; [|by rewrite app_nil_r].
  destruct (expires_at consent <? now); [cbn; by rewrite app_nil_r|].
  destruct (negb (truthy (consent_id consent))); [cbn; by rewrite app_nil_r|].
  cbn. destruct (net _ _) as [msg | code text body]; [done|].
  destruct (code =? 200); [|done].
  destruct body as [e | [ | | | | | | kv]]; try done.
  by destruct (dict_get kv "status" (JStr "")).
Qed.

(** The status a check returns is the status it leaves in the store, except
    where it returns [DENIED] without touching the store: for an unknown
    handle and in the exception handler. *)
Lemma get_consent_status_report (net : Network) (c : Collector) (h : string) (now : Z) :
  stored_status (snd (get_consent_status net c h now)) h
  = Some (fst (get_consent_status net c h now))
  ∨ (fst (get_consent_status net c h now) = DENIED
     ∧ active_consents (snd (get_consent_status net c h now)) = active_consents c).
Proof.
  unfold get_consent_status, stored_status.
  destruct (active_consents c !! h) as [consent|] eqn:Hl; [|by right].
  destruct (expires_at consent <? now).
  { left. cbn. by rewrite lookup_insert_eq. }
  destruct (negb (truthy (consent_id consent))); [left; cbn; by rewrite Hl|].
  cbn. destruct (net _ _) as [msg | code text body]; [by right|].
  destruct (code =? 200); [|left; cbn; by rewrite Hl].
  destruct body as [e | [ | | | | | | kv]]; try by right.
  destruct (dict_get kv "status" (JStr "")); try by right.
  left. cbn. by rewrite lookup_insert_eq.
Qed.

(** C5, as the code has it.  When the status check does not come back
    [GRANTED], the route [request_fi_data] answers 400 with the value the
    check returned in its text, and the collector's own [request_fi_data]
    raises [ValueError] with one of two fixed texts that name no status.
    Both leave the collector as the status check left it: the requests sent
    are exactly those of the check (the read of [/Consent/handle/<id>], or
    none), so no [/FI/request] goes out and no session id exists.  The value
    returned is the stored status, or it is [DENIED] with the store left as
    it was. *)
Theorem request_without_grant_is_refused (net : Network) (c : Collector) (h : string)
    (now1 now2 : Z) :
  fst (get_consent_status net c h now1) ≠ GRANTED →
  Routes.request_fi_data net c h now1 now2
  = (inl (Routes.mkHTTPException 400
            (JStr ("Consent not granted. Current status: " +:+
                   status_value (fst (get_consent_status net c h now1))))),
     snd (get_consent_status net c h now1))
  ∧ request_fi_data net c h now1
    = (inl (match active_consents c !! h with
            | Some _ => "Consent not granted or expired"
            | None => "Invalid consent handle"
            end)%string,
       snd (get_consent_status net c h now1))
  ∧ net_log (snd (get_consent_status net c h now1))
    = net_log c ++ status_requests c h now1
  ∧ (stored_status (snd (get_consent_status net c h now1)) h
     = Some (fst (get_consent_status net c h now1))
     ∨ (fst (get_consent_status net c h now1) = DENIED
        ∧ active_consents (snd (get_consent_status net c h now1)) = active_consents c)).
Proof.
  intros Hng. split; [|split; [|split]].
  - unfold Routes.request_fi_data.
    destruct (get_consent_status net c h now1) as [st c1]. cbn [fst snd] in *.
    by rewrite bool_decide_eq_false_2.
  - unfold request_fi_data.
    destruct (active_consents c !! h) as [consent|] eqn:Hl.
    + destruct (get_consent_status net c h now1) as [st c1]. cbn [fst snd] in *.
      by rewrite bool_decide_eq_false_2.
    + unfold get_consent_status. by rewrite Hl.
  - apply get_consent_status_log.
  - apply get_consent_status_report.
Qed.

(** A creation with a duration in range that the network answers with a
    status other than 200 is stored under its handle as [DENIED]. *)
Lemma create_rejected_is_stored (net : Network) (c : Collector) (uid : string)
    (fi_arg : option (list string)) (purpose_text : string) (days : Z)
    (mobile name : option string) (handle : string) (now : Z)
    (code : Z) (text : string) (body : string + Json pyfloat) :
  is_configured c = true →
  duration_in_range now days = true →
  code ≠ 200 →
  net (length (net_log c))
      (POST (api_base_url c +:+ "/consents")
         (consent_payload c uid
            (match fi_arg with Some l => l | None => default_fi_types end)
            purpose_text days mobile now))
    = NetResponse code text body →
  stored_status
    (snd (create_consent_request net c uid fi_arg purpose_text days mobile name handle now))
    handle = Some DENIED.
Proof.
  intros Hconf Hrange Hcode Hnet. unfold create_consent_request, stored_status.
  rewrite Hconf, Hrange. cbn. rewrite Hnet.
  destruct (Z.eqb_spec code 200) as [?|_]; [done|].
  cbn. by rewrite lookup_insert_eq.
Qed.

(** C8 at a transport error: the record comes back [DENIED], and the stored
    consents are what they were, so nothing is stored under the new handle.
    (With a duration out of range the call raises [OverflowError] before
    anything is sent, and nothing is stored either.) *)
Theorem create_transport_error_not_stored (net : Network) (c : Collector) (uid : string)
    (fi_arg : option (list string)) (purpose_text : string) (days : Z)
    (mobile name : option string) (handle : string) (now : Z) (msg : string) :
  is_configured c = true →
  net (length (net_log c))
      (POST (api_base_url c +:+ "/consents")
         (consent_payload c uid
            (match fi_arg with Some l => l | None => default_fi_types end)
            purpose_text days mobile now))
    = NetRaise msg →
  fst (create_consent_request net c uid fi_arg purpose_text days mobile name handle now)
  = (if duration_in_range now days
     then Ok (set_status DENIED
                (new_consent uid
                   (match fi_arg with Some l => l | None => default_fi_types end)
                   purpose_text days handle now))
     else Raise OverflowError)
  ∧ active_consents
      (snd (create_consent_request net c uid fi_arg purpose_text days mobile name handle now))
    = active_consents c.
Proof.
  intros Hconf Hnet. unfold create_consent_request.
  rewrite Hconf. cbn [negb]. destruct (duration_in_range now days); [|done].
  cbn. by rewrite Hnet.
Qed.
End ConsentGate.

Section ConsentGateExamples.
#[local] Existing Instance demo_runtime.

Lemma request_without_grant_is_refused_witness :
  Routes.request_fi_data (Demo.net_ok (Demo.remote_status "PENDING"))
    (Demo.tracking PENDING (JStr "R1") 100) "H1" 10 11
  = (inl (Routes.mkHTTPException 400
            (JStr ("Consent not granted. Current status: " +:+
                   status_value
                     (fst (get_consent_status (Demo.net_ok (Demo.remote_status "PENDING"))
                             (Demo.tracking PENDING (JStr "R1") 100) "H1" 10))))),
     snd (get_consent_status (Demo.net_ok (Demo.remote_status "PENDING"))
            (Demo.tracking PENDING (JStr "R1") 100) "H1" 10))
  ∧ request_fi_data (Demo.net_ok (Demo.remote_status "PENDING"))
      (Demo.tracking PENDING (JStr "R1") 100) "H1" 10
    = (inl (match active_consents (Demo.tracking PENDING (JStr "R1") 100) !! "H1" with
            | Some _ => "Consent not granted or expired"
            | None => "Invalid consent handle"
            end)%string,
       snd (get_consent_status (Demo.net_ok (Demo.remote_status "PENDING"))
              (Demo.tracking PENDING (JStr "R1") 100) "H1" 10))
  ∧ net_log (snd (get_consent_status (Demo.net_ok (Demo.remote_status "PENDING"))
                    (Demo.tracking PENDING (JStr "R1") 100) "H1" 10))
    = net_log (Demo.tracking PENDING (JStr "R1") 100)
      ++ status_requests (Demo.tracking PENDING (JStr "R1") 100) "H1" 10
  ∧ (stored_status
       (snd (get_consent_status (Demo.net_ok (Demo.remote_status "PENDING"))
               (Demo.tracking PENDING (JStr "R1") 100) "H1" 10)) "H1"
     = Some (fst (get_consent_status (Demo.net_ok (Demo.remote_status "PENDING"))
                    (Demo.tracking PENDING (JStr "R1") 100) "H1" 10))
     ∨ (fst (get_consent_status (Demo.net_ok (Demo.remote_status "PENDING"))
               (Demo.tracking PENDING (JStr "R1") 100) "H1" 10) = DENIED
        ∧ active_consents
            (snd (get_consent_status (Demo.net_ok (Demo.remote_status "PENDING"))
                    (Demo.tracking PENDING (JStr "R1") 100) "H1" 10))
          = active_consents (Demo.tracking PENDING (JStr "R1") 100))).
Proof.
  apply (request_without_grant_is_refused (Demo.net_ok (Demo.remote_status "PENDING"))
           (Demo.tracking PENDING (JStr "R1") 100) "H1" 10 11).
  vm_compute. discriminate.
Defined.

(** C5 fails on the code where it has the refusal report the consent's
    current status.  A consent stored as [PENDING] is asked for while the
    network is down: the route's refusal says "denied", the store still says
    [PENDING] afterwards, and the collector's own refusal is a text that
    names no status at all. *)
Lemma refusal_misreports_status :
  stored_status (Demo.tracking PENDING (JStr "R1") 100) "H1" = Some PENDING
  ∧ fst (Routes.request_fi_data Demo.net_down
           (Demo.tracking PENDING (JStr "R1") 100) "H1" 10 11)
    = inl (Routes.mkHTTPException 400 (JStr "Consent not granted. Current status: denied"))
  ∧ stored_status
      (snd (Routes.request_fi_data Demo.net_down
              (Demo.tracking PENDING (JStr "R1") 100) "H1" 10 11)) "H1" = Some PENDING
  ∧ fst (request_fi_data Demo.net_down (Demo.tracking PENDING (JStr "R1") 100) "H1" 10)
    = inl "Consent not granted or expired"%string.
Proof. repeat split; reflexivity. Qed.

(** The refusal read off the model: status 400 with the status in the text,
    one read sent, against the granted case where the POST goes out. *)
Example request_pending_evaluated :
  Routes.request_fi_data (Demo.net_ok (Demo.remote_status "PENDING"))
    (Demo.tracking PENDING (JStr "R1") 100) "H1" 10 11
  = (inl (Routes.mkHTTPException 400
            (JStr "Consent not granted. Current status: pending")),
     {| is_configured := true; api_base_url := "https://fiu-uat.setu.co";
        client_id := JStr "test_client_id"; webhook_url := JNull;
        active_consents := {[ "H1"%string := Demo.consent PENDING (JStr "R1") 100 ]};
        net_log := [GET "https://fiu-uat.setu.co/Consent/handle/R1"] |}).
Proof. reflexivity. Qed.

Lemma create_transport_error_not_stored_witness :
  fst (create_consent_request Demo.net_down (Demo.collector ∅) "user-42"
         (Some ["DEPOSIT"%string]) "Credit Assessment" 30 None None "H1" 0)
  = Ok (set_status DENIED
          (new_consent "user-42" ["DEPOSIT"%string] "Credit Assessment" 30 "H1" 0))
  ∧ active_consents
      (snd (create_consent_request Demo.net_down (Demo.collector ∅) "user-42"
              (Some ["DEPOSIT"%string]) "Credit Assessment" 30 None None "H1" 0))
    = active_consents (Demo.collector ∅).
Proof.
  apply (create_transport_error_not_stored Demo.net_down (Demo.collector ∅) "user-42"
           (Some ["DEPOSIT"%string]) "Credit Assessment" 30 None None "H1" 0
           "Connection refused");
    reflexivity.
Defined.

(** The two failures of a creation side by side: a rejected creation is
    found under its handle, one that met a transport error is not. *)
Example create_failures_evaluated :
  stored_status
    (snd (create_consent_request Demo.net_reject (Demo.collector ∅) "user-42"
            None "Credit Assessment" 30 None None "H1" 0)) "H1" = Some DENIED
  ∧ stored_status
      (snd (create_consent_request Demo.net_down (Demo.collector ∅) "user-42"
              None "Credit Assessment" 30 None None "H1" 0)) "H1" = None.
Proof. repeat split; reflexivity. Qed.
End ConsentGateExamples.

Section Normalisation.
Context `{RT : PyRuntime}.

Local Abbreviation json := (Json pyfloat).
Local Abbreviation record := (list (string * Json pyfloat)).

Lemma bindE_Ok {A B : Type} (m : Exc A) (k : A → Exc B) (b : B) :
  bindE m k = Ok b → ∃ a, m = Ok a ∧ k a = Ok b.
Proof. destruct m as [a|e]; [eauto | discriminate]. Qed.

Lemma bindE_Raise {A B : Type} (m : Exc A) (k : A → Exc B) (e : PyExn) :
  m = Raise e → bindE m k = Raise e.
Proof. by intros ->. Qed.

(** An iterable is false exactly when the loop over it has no turn. *)
Lemma py_iter_truthy (x : json) (l : list json) :
  py_iter x = Ok l → truthy x = match l with [] => false | _ => true end.
Proof.
  destruct x as [ | b | z | f | s | l' | kv]; cbn; try discriminate;
    intros [= <-].
  - by destruct s.
  - by destruct l'.
  - by destruct kv.
Qed.

Lemma process_transactions_spec (summary : record) (txns : list json) (acc recs : list record) :
  process_transactions summary txns acc = Ok recs →
  ∃ group, recs = acc ++ group
           ∧ Forall2 (λ txn r, transaction_data summary txn = Ok r) txns group.
Proof.
  revert acc. induction txns as [|txn txns IH]; intros acc; cbn.
  - intros [= <-]. exists []. by rewrite app_nil_r.
  - intros H. apply bindE_Ok in H as (r & Hr & H).
    destruct (IH _ H) as (group & -> & Hall).
    exists (r :: group). rewrite <- app_assoc. split; [done|]. by constructor.
Qed.

(** A transaction's record is its account's summary followed by the eight
    fields of the transaction. *)
Lemma transaction_data_extends (account_info txn : json) (summary r : record) :
  summary_data account_info = Ok summary →
  transaction_data summary txn = Ok r →
  ∃ fields, r = summary ++ fields ∧ fst <$> fields = transaction_keys.
Proof.
  destruct account_info as [ | | | | | | kv]; try discriminate. intros [= <-].
  destruct txn as [ | | | | | | tkv]; try discriminate. unfold transaction_data.
  intros H. apply bindE_Ok in H as (amount & _ & H).
  apply bindE_Ok in H as (balance & _ & H). injection H as <-.
  eexists. split; reflexivity.
Qed.

Lemma process_account_spec (account : json) (acc recs : list record) :
  process_account account acc = Ok recs →
  ∃ group, recs = acc ++ group
           ∧ emitted_for account group
           ∧ length group
             = (length (transactions_of account)
                + if has_no_transactions account then 1 else 0)%nat.
Proof.
  unfold process_account. intros H.
  apply bindE_Ok in H as (account_info & Hinfo & H).
  apply bindE_Ok in H as (transactions & Htx & H).
  apply bindE_Ok in H as (summary & Hsum & H).
  apply bindE_Ok in H as (txns & Hiter & H).
  apply bindE_Ok in H as (recs1 & Hloop & H).
  assert (Hof : transactions_of account = txns).
  { unfold transactions_of. by rewrite Htx; cbn; rewrite Hiter. }
  rewrite (py_iter_truthy _ _ Hiter) in H.
  destruct (process_transactions_spec _ _ _ _ Hloop) as (group & -> & Hall).
  unfold emitted_for, has_no_transactions. rewrite Hof.
  destruct txns as [|txn txns]; cbn [negb] in H; injection H as <-.
  - apply Forall2_nil_inv_l in Hall as ->. rewrite app_nil_r.
    exists [summary]. split; [done|]. split; [|done].
    exists account_info, summary. done.
  - exists group. split; [done|]. split.
    + exists account_info, summary. repeat split; [done..|].
      eapply Forall2_impl; [exact Hall|]. cbn. intros t r Hr. split; [done|].
      destruct (transaction_data_extends _ _ _ _ Hsum Hr) as (fields & -> & _). eauto.
    + apply Forall2_length in Hall. rewrite <- Hall. lia.
Qed.

Lemma process_accounts_spec (accounts : list json) (acc recs : list record) :
  process_accounts accounts acc = Ok recs →
  ∃ groups, recs = acc ++ concat groups
            ∧ Forall2 emitted_for accounts groups
            ∧ length (concat groups)
              = (sum_list ((λ a, length (transactions_of a)) <$> accounts)
                 + length (filter (λ a, has_no_transactions a = true) accounts))%nat.
Proof.
  revert acc. induction accounts as [|account accounts IH]; intros acc;
    cbn [process_accounts].
  - intros [= <-]. exists []. by rewrite app_nil_r.
  - intros H. apply bindE_Ok in H as (recs1 & Hone & H).
    destruct (process_account_spec _ _ _ Hone) as (group & -> & Hem & Hlen).
    destruct (IH _ H) as (groups & -> & Hall & Hlens).
    exists (group :: groups). rewrite <- app_assoc. split; [done|].
    split; [by constructor|].
    cbn [concat]. rewrite length_app, Hlen, Hlens, filter_cons, fmap_cons.
    destruct (has_no_transactions account); case_decide; try done; cbn; lia.
Qed.

Lemma convert_date_column_len (col : string) (df df' : DataFrame) :
  convert_date_column col df = Ok df' → df_len df' = df_len df.
Proof.
  unfold convert_date_column, df_len.
  destruct (index_of col (df_columns df)) as [i|]; [|by intros [= <-]].
  destruct (pd_to_datetime _) as [converted|]; [|discriminate].
  intros [= <-]. cbn. by rewrite length_imap.
Qed.

Lemma convert_dates_len (df df' : DataFrame) :
  convert_dates df = Ok df' → df_len df' = df_len df.
Proof.
  unfold convert_dates, date_columns. cbn [fold_left]. intros H.
  apply bindE_Ok in H as (d2 & H2 & H3).
  apply bindE_Ok in H2 as (d1 & H1 & H2).
  apply bindE_Ok in H1 as (d0 & [= <-] & H1).
  apply convert_date_column_len in H1, H2, H3. congruence.
Qed.

Lemma frame_of_records_len (records : list record) :
  df_len (frame_of_records records) = length records.
Proof. unfold df_len, frame_of_records. cbn. by rewrite length_fmap. Qed.

(** What the body of the normalisation emits when it does not raise. *)
Lemma process_body_spec (fi_data : json) (df : DataFrame) :
  process_body fi_data = Ok df →
  ∃ groups, process_accounts (accounts_of fi_data) [] = Ok (concat groups)
            ∧ Forall2 emitted_for (accounts_of fi_data) groups
            ∧ df_len df = length (concat groups)
            ∧ length (concat groups)
              = (total_transactions fi_data + accounts_without_transactions fi_data)%nat.
Proof.
  unfold process_body. intros H.
  apply bindE_Ok in H as (accounts & Hacc & H).
  apply bindE_Ok in H as (items & Hitems & H).
  apply bindE_Ok in H as (records & Hrecs & H).
  assert (Hof : accounts_of fi_data = items).
  { unfold accounts_of. by rewrite Hacc; cbn; rewrite Hitems. }
  unfold total_transactions, accounts_without_transactions. rewrite Hof.
  destruct (process_accounts_spec _ _ _ Hrecs) as (groups & Heq & Hall & Hlen).
  cbn in Heq. subst records. exists groups. repeat split; [done..| |done].
  destruct (concat groups) as [|r rs] eqn:Hc.
  - by injection H as <-.
  - apply convert_dates_len in H. by rewrite H, frame_of_records_len.
Qed.

End Normalisation.

Section Fallback.
Context `{RT : PyRuntime}.

Local Abbreviation json := (Json pyfloat).
Local Abbreviation record := (list (string * Json pyfloat)).

Lemma process_transactions_raises (summary : record) (txns : list json) (txn : json)
    (e : PyExn) (acc : list record) :
  txn ∈ txns →
  transaction_data summary txn = Raise e →
  ∃ e', process_transactions summary txns acc = Raise e'.
Proof.
  intros Hin Hbad. revert acc.
  induction txns as [|t txns IH]; intros acc; [by apply elem_of_nil in Hin|].
  cbn [process_transactions].
  destruct (transaction_data summary t) as [r|e0] eqn:Ht; [|cbn; eauto].
  cbn. apply elem_of_cons in Hin as [->|Hin]; [congruence|]. by apply IH.
Qed.

Lemma process_accounts_raises (accounts : list json) (account : json) (acc : list record) :
  account ∈ accounts →
  (∀ acc', ∃ e, process_account account acc' = Raise e) →
  ∃ e', process_accounts accounts acc = Raise e'.
Proof.
  intros Hin Hbad. revert acc.
  induction accounts as [|a accounts IH]; intros acc; [by apply elem_of_nil in Hin|].
  cbn [process_accounts].
  destruct (process_account a acc) as [recs|e0] eqn:Ha; [|cbn; eauto].
  cbn. apply elem_of_cons in Hin as [->|Hin]; [|by apply IH].
  destruct (Hbad acc) as (e & He). congruence.
Qed.

(** An account with a transaction whose amount [float] refuses stops the
    loop, whatever came before it. *)
Lemma bad_amount_account_raises (akv : list (string * json)) (txns : list json)
    (tkv : list (string * json)) (e : PyExn) (acc : list record) :
  dict_get akv "transactions" (JArr []) = JArr txns →
  JObj tkv ∈ txns →
  float_conv (dict_get tkv "amount" (JInt 0)) = Raise e →
  ∃ e', process_account (JObj akv) acc = Raise e'.
Proof.
  intros Htx Hin Hbad. unfold process_account. cbn [py_get bindE]. rewrite Htx.
  destruct (summary_data _) as [summary|e0]; [|cbn; eauto].
  cbn [bindE py_iter].
  destruct (process_transactions_raises summary txns (JObj tkv) e acc Hin) as (e' & ->);
    [|cbn; eauto].
  unfold transaction_data. by rewrite Hbad.
Qed.

(** C3, as the code has it: a payload that holds a transaction whose amount
    [float] refuses makes the body of the normalisation raise; the
    normalisation returns, and what it returns is the sample data generated
    for "demo_user", not the records of the payload. *)
Theorem bad_amount_replaces_batch (kv : list (string * json)) (accounts : list json)
    (akv : list (string * json)) (txns : list json) (tkv : list (string * json))
    (e : PyExn) (now : Z) :
  dict_get kv "Accounts" (JArr []) = JArr accounts →
  JObj akv ∈ accounts →
  dict_get akv "transactions" (JArr []) = JArr txns →
  JObj tkv ∈ txns →
  float_conv (dict_get tkv "amount" (JInt 0)) = Raise e →
  (∃ e', process_body (JObj kv) = Raise e')
  ∧ _process_setu_fi_data (JObj kv) now = _generate_sample_financial_data "demo_user" now.
Proof.
  intros Hacc Hin Htx Htin Hbad.
  assert (Hbody : ∃ e', process_body (JObj kv) = Raise e').
  { unfold process_body. cbn [py_get bindE]. rewrite Hacc. cbn [py_iter bindE].
    destruct (process_accounts_raises accounts (JObj akv) [] Hin) as (e' & ->);
      [|cbn; eauto].
    intros acc'. by eapply bad_amount_account_raises. }
  split; [exact Hbody|]. destruct Hbody as (e' & He').
  unfold _process_setu_fi_data. by rewrite He'.
Qed.

Lemma float_conv_zero : float_conv (JInt 0) = Ok (float_round 0).
Proof. reflexivity. Qed.

(** The default of the code: a transaction without an ["amount"] key gets
    the amount [float(0)]. *)
Lemma missing_amount_defaults_to_zero (account_info : json) (summary : record)
    (tkv : list (string * json)) (r : record) :
  summary_data account_info = Ok summary →
  assoc_get tkv "amount" = None →
  transaction_data summary (JObj tkv) = Ok r →
  assoc_get r "amount" = Some (JFloat (float_round 0)).
Proof.
  destruct account_info as [ | | | | | | kv]; try discriminate. intros [= <-].
  intros Hnone. unfold transaction_data, dict_get at 1. rewrite Hnone, float_conv_zero.
  cbn [bindE]. intros H. apply bindE_Ok in H as (balance & _ & H).
  by injection H as <-.
Qed.

(** The sample has between 50 and 199 rows. *)
Lemma sample_data_size (uid : string) (now : Z) :
  (50 ≤ df_len (_generate_sample_financial_data uid now) < 200)%nat.
Proof.
  unfold df_len, _generate_sample_financial_data. cbn [df_rows].
  rewrite length_fmap, length_seq.
  pose proof (Z.mod_pos_bound (np_randint_raw (py_hash uid mod 2 ^ 32)) 150). lia.
Qed.

(** Whatever the normalisation did, a dict payload answered with 200 gives a
    result with the same flags and metadata. *)
Lemma fetch_dict_payload (net : Network) (c : Collector) (session_id : string) (now : Z)
    (text : string) (kv : list (string * json)) :
  net (length (net_log c)) (GET (api_base_url c +:+ "/FI/fetch/" +:+ session_id))
    = NetResponse 200 text (inr (JObj kv)) →
  fst (fetch_fi_data net c session_id now)
  = {| success := true;
       data := Some (_process_setu_fi_data (JObj kv) now);
       metadata := fetch_metadata session_id kv;
       error_message := None;
       records_collected := df_len (_process_setu_fi_data (JObj kv) now);
       collection_timestamp := Some now |}.
Proof. intros Hnet. unfold fetch_fi_data. cbn. by rewrite Hnet. Qed.

(** A payload that is not a dict has no [.get]: its normalisation raises at
    the first statement. *)
Lemma non_dict_payload_raises (payload : json) :
  (∀ kv, payload ≠ JObj kv) → process_body payload = Raise AttributeError.
Proof.
  intros Hnd. destruct payload as [ | | | | | | kv]; try reflexivity.
  by destruct (Hnd kv).
Qed.

(** C10, as the code has it.  Whenever the normalisation of a fetched
    payload raises, [_process_setu_fi_data] returns the sample generated for
    "demo_user".  For a payload that is a dict, [fetch_fi_data] then reports
    success, with no error message, the metadata of any successful fetch and
    the sample as data.  For a payload that is not a dict, whose
    normalisation always raises, the sample is built as well, but
    [response_data.keys()] raises after it and [fetch_fi_data] reports a
    failure with the text of that error and no data. *)
Theorem failed_normalisation_returns_sample (net : Network) (c : Collector)
    (session_id : string) (now : Z) (text : string) (payload : json) :
  net (length (net_log c)) (GET (api_base_url c +:+ "/FI/fetch/" +:+ session_id))
    = NetResponse 200 text (inr payload) →
  (∀ e, process_body payload = Raise e →
     _process_setu_fi_data payload now = _generate_sample_financial_data "demo_user" now
     ∧ fst (fetch_fi_data net c session_id now)
       = match payload with
         | JObj kv =>
             {| success := true;
                data := Some (_generate_sample_financial_data "demo_user" now);
                metadata := fetch_metadata session_id kv;
                error_message := None;
                records_collected := df_len (_generate_sample_financial_data "demo_user" now);
                collection_timestamp := Some now |}
         | other =>
             {| success := false; data := None;
                metadata := [("session_id", JStr session_id)];
                error_message := Some (attribute_error_message other "keys");
                records_collected := 0%nat; collection_timestamp := None |}
         end)
  ∧ ((∀ kv, payload ≠ JObj kv) → process_body payload = Raise AttributeError).
Proof.
  intros Hnet. split; [|apply non_dict_payload_raises].
  intros e Hraise.
  assert (Hs : _process_setu_fi_data payload now
               = _generate_sample_financial_data "demo_user" now).
  { unfold _process_setu_fi_data. by rewrite Hraise. }
  split; [exact Hs|].
  unfold fetch_fi_data. cbn [session_send]. rewrite Hnet. cbn [Z.eqb Pos.eqb].
  destruct payload as [ | | | | | | kv]; try reflexivity. cbn [fst]. by rewrite Hs.
Qed.
End Fallback.

Section NormalisationExamples.
#[local] Existing Instance demo_runtime.


(** Two transactions under one account and an account without any: three
    rows, the last with nothing in the transaction columns. *)
Example normalisation_evaluated :
  df_len (_process_setu_fi_data Demo.payload_ok 0) = 3%nat
  ∧ total_transactions Demo.payload_ok = 2%nat
  ∧ accounts_without_transactions Demo.payload_ok = 1%nat
  ∧ (λ row, row !! 0%nat) <$> df_rows (_process_setu_fi_data Demo.payload_ok 0)
    = [Some (CVal (JStr "A1")); Some (CVal (JStr "A1")); Some (CVal (JStr "A2"))]
  ∧ (λ row, row !! 10%nat) <$> df_rows (_process_setu_fi_data Demo.payload_ok 0)
    = [Some (CVal (JFloat 120)); Some (CVal (JFloat 75)); Some CNaN].
Proof. repeat split; reflexivity. Qed.


Lemma bad_amount_replaces_batch_witness :
  (∃ e', process_body Demo.payload_bad_amount = Raise e')
  ∧ _process_setu_fi_data Demo.payload_bad_amount 0
    = _generate_sample_financial_data "demo_user" 0.
Proof.
  apply (@bad_amount_replaces_batch demo_runtime
           [("Accounts", JArr [ Demo.account "A1" [Demo.transaction "T1" (JStr "abc");
                                                   Demo.transaction "T2" (JStr "75")];
                                Demo.account "A2" [] ])]
           [ Demo.account "A1" [Demo.transaction "T1" (JStr "abc");
                                Demo.transaction "T2" (JStr "75")];
             Demo.account "A2" [] ]
           [ ("account", JObj [("accountId", JStr "A1"); ("type", JStr "SAVINGS")]);
             ("transactions", JArr [Demo.transaction "T1" (JStr "abc");
                                    Demo.transaction "T2" (JStr "75")]) ]
           [Demo.transaction "T1" (JStr "abc"); Demo.transaction "T2" (JStr "75")]
           [("transactionId", JStr "T1"); ("amount", JStr "abc"); ("type", JStr "DEBIT")]
           ValueError 0).
  - reflexivity.
  - apply list_elem_of_here.
  - reflexivity.
  - apply list_elem_of_here.
  - reflexivity.
Defined.

(** C3 fails on the code: with the amount of T1 not a number, the frame that
    comes back is the sample; it has no transaction_id column, so neither a
    record for T1 with amount 0 nor the record of T2 is in it. *)
Lemma bad_amount_drops_batch :
  float_conv (JStr "abc") = Raise ValueError
  ∧ _process_setu_fi_data Demo.payload_bad_amount 0
    = _generate_sample_financial_data "demo_user" 0
  ∧ df_columns (_process_setu_fi_data Demo.payload_bad_amount 0)
    = [ "user_id"; "transaction_date"; "amount"; "transaction_type"; "category";
        "account_balance"; "account_id"; "account_type" ]%string
  ∧ (λ row, row !! 6%nat) <$> take 2 (df_rows (_process_setu_fi_data Demo.payload_bad_amount 0))
    = [Some (CVal (JStr "ACC_demo_user_001")); Some (CVal (JStr "ACC_demo_user_001"))].
Proof. repeat split; reflexivity. Qed.

Lemma failed_normalisation_returns_sample_witness :
  (_process_setu_fi_data Demo.payload_bad_amount 0
   = _generate_sample_financial_data "demo_user" 0
   ∧ fst (fetch_fi_data (Demo.net_ok Demo.payload_bad_amount) (Demo.collector ∅) "S1" 0)
     = {| success := true;
          data := Some (_generate_sample_financial_data "demo_user" 0);
          metadata := fetch_metadata "S1" [("Accounts", JArr [ Demo.account "A1" [Demo.transaction "T1" (JStr "abc"); Demo.transaction "T2" (JStr "75")]; Demo.account "A2" [] ])];
          error_message := None;
          records_collected := df_len (_generate_sample_financial_data "demo_user" 0);
          collection_timestamp := Some 0 |})
  ∧ process_body (JArr [JStr "x"]) = Raise AttributeError
  ∧ _process_setu_fi_data (JArr [JStr "x"]) 0 = _generate_sample_financial_data "demo_user" 0
  ∧ fst (fetch_fi_data (Demo.net_ok (JArr [JStr "x"])) (Demo.collector ∅) "S1" 0)
    = {| success := false; data := None; metadata := [("session_id", JStr "S1")];
         error_message := Some "'list' object has no attribute 'keys'"%string;
         records_collected := 0%nat; collection_timestamp := None |}.
Proof.
  split; [|split].
  - apply (proj1 (@failed_normalisation_returns_sample demo_runtime
                    (Demo.net_ok Demo.payload_bad_amount)
                    (Demo.collector ∅) "S1" 0 "" Demo.payload_bad_amount eq_refl)
             ValueError).
    reflexivity.
  - apply (proj2 (@failed_normalisation_returns_sample demo_runtime
                    (Demo.net_ok (JArr [JStr "x"]))
                    (Demo.collector ∅) "S1" 0 "" (JArr [JStr "x"]) eq_refl)).
    intros kv; discriminate.
  - apply (proj1 (@failed_normalisation_returns_sample demo_runtime
                    (Demo.net_ok (JArr [JStr "x"]))
                    (Demo.collector ∅) "S1" 0 "" (JArr [JStr "x"]) eq_refl)
             AttributeError).
    reflexivity.
Defined.

(** C10 fails on the code for a payload that is not a dict: the
    normalisation raises and falls back to the sample, but the keys of the
    payload cannot be listed and the fetch is reported as failed. *)
Lemma list_payload_reports_failure :
  process_body (JArr []) = Raise AttributeError
  ∧ fst (fetch_fi_data (Demo.net_ok (JArr [])) (Demo.collector ∅) "S1" 0)
    = {| success := false; data := None; metadata := [("session_id", JStr "S1")];
         error_message := Some "'list' object has no attribute 'keys'"%string;
         records_collected := 0%nat; collection_timestamp := None |}.
Proof. repeat split; reflexivity. Qed.
End NormalisationExamples.

(** * Further properties of the collector *)

Section ConsentStore.
Context `{RT : PyRuntime}.

Local Abbreviation json := (Json pyfloat).

(** A creation with a duration in range that the network answers with 200
    and a JSON object is stored under its handle as [PENDING] with the remote
    id and URL of the answer; the record returned is the record stored, and
    the creation is the one request sent. *)
Theorem create_success_is_stored (net : Network) (c : Collector) (uid : string)
    (fi_arg : option (list string)) (purpose_text : string) (days : Z)
    (mobile name : option string) (handle : string) (now : Z)
    (text : string) (kv : list (string * json)) :
  is_configured c = true →
  duration_in_range now days = true →
  net (length (net_log c))
      (POST (api_base_url c +:+ "/consents")
         (consent_payload c uid
            (match fi_arg with Some l => l | None => default_fi_types end)
            purpose_text days mobile now))
    = NetResponse 200 text (inr (JObj kv)) →
  ∃ consent,
    fst (create_consent_request net c uid fi_arg purpose_text days mobile name handle now)
    = Ok consent
    ∧ active_consents
        (snd (create_consent_request net c uid fi_arg purpose_text days mobile name handle now))
        !! handle = Some consent
    ∧ status consent = PENDING
    ∧ consent_id consent = dict_get kv "id" JNull
    ∧ consent_url consent = dict_get kv "url" JNull
    ∧ consent_handle consent = Some handle
    ∧ expires_at consent = now + timedelta_days days
    ∧ net_log
        (snd (create_consent_request net c uid fi_arg purpose_text days mobile name handle now))
      = net_log c
        ++ [POST (api_base_url c +:+ "/consents")
              (consent_payload c uid
                 (match fi_arg with Some l => l | None => default_fi_types end)
                 purpose_text days mobile now)].
Proof.
  intros Hconf Hrange Hnet. unfold create_consent_request. rewrite Hconf, Hrange. cbn.
  rewrite Hnet. cbn. eexists. split; [reflexivity|]. rewrite lookup_insert_eq. done.
Qed.

(** A handle under which nothing is stored, as after a creation that met a
    transport error (or raised for its duration before sending), is answered
    [DENIED] at every time, before and after the expiry the caller was given,
    without a request; and [request_fi_data] on it raises. *)
Theorem unstored_handle_is_denied (net net' : Network) (c : Collector) (uid : string)
    (fi_arg : option (list string)) (purpose_text : string) (days : Z)
    (mobile name : option string) (handle : string) (now now' : Z) (msg : string) :
  is_configured c = true →
  active_consents c !! handle = None →
  net (length (net_log c))
      (POST (api_base_url c +:+ "/consents")
         (consent_payload c uid
            (match fi_arg with Some l => l | None => default_fi_types end)
            purpose_text days mobile now))
    = NetRaise msg →
  get_consent_status net'
    (snd (create_consent_request net c uid fi_arg purpose_text days mobile name handle now))
    handle now'
  = (DENIED,
     snd (create_consent_request net c uid fi_arg purpose_text days mobile name handle now))
  ∧ request_fi_data net'
      (snd (create_consent_request net c uid fi_arg purpose_text days mobile name handle now))
      handle now'
    = (inl "Invalid consent handle"%string,
       snd (create_consent_request net c uid fi_arg purpose_text days mobile name handle now)).
Proof.
  intros Hconf Hfresh Hnet. unfold create_consent_request. rewrite Hconf.
  cbn [negb]. destruct (duration_in_range now days); cbn [negb].
  - cbn. rewrite Hnet. cbn. unfold get_consent_status, request_fi_data. cbn.
    by rewrite Hfresh.
  - unfold get_consent_status, request_fi_data. cbn. by rewrite Hfresh.
Qed.

(** Whatever a status check on a stored consent returns, other than
    [DENIED], is the status it leaves in the store. *)
Theorem returned_status_is_stored (net : Network) (c : Collector) (h : string)
    (consent : ConsentRequest) (now : Z) :
  active_consents c !! h = Some consent →
  fst (get_consent_status net c h now) ≠ DENIED →
  stored_status (snd (get_consent_status net c h now)) h
  = Some (fst (get_consent_status net c h now)).
Proof.
  intros Hl. unfold get_consent_status, stored_status. rewrite Hl.
  assert (Hkeep : ∀ c', active_consents c' = active_consents c →
            status <$> active_consents c' !! h = Some (status consent)).
  { intros c' ->. by rewrite Hl. }
  destruct (expires_at consent <? now).
  { intros _. cbn. by rewrite lookup_insert_eq. }
  destruct (negb (truthy (consent_id consent))); [intros _; by apply Hkeep|].
  cbn. destruct (net _ _) as [msg | code text body]; [done|].
  destruct (code =? 200); [|intros _; by apply Hkeep].
  destruct body as [e | [ | | | | | | kv]]; try done.
  destruct (dict_get kv "status" (JStr "")); try done.
  intros _. cbn. by rewrite lookup_insert_eq.
Qed.

(** When the status request is answered with a status code other than 200,
    the check returns the cached status and leaves the stored consents as
    they were. *)
Theorem rejected_status_request_keeps_cache (net : Network) (c : Collector) (h : string)
    (consent : ConsentRequest) (now : Z) (code : Z) (text : string)
    (body : string + json) :
  active_consents c !! h = Some consent →
  now ≤ expires_at consent →
  truthy (consent_id consent) = true →
  code ≠ 200 →
  net (length (net_log c))
      (GET (api_base_url c +:+ "/Consent/handle/" +:+ format_value (consent_id consent)))
    = NetResponse code text body →
  fst (get_consent_status net c h now) = status consent
  ∧ active_consents (snd (get_consent_status net c h now)) = active_consents c.
Proof.
  intros Hl Hnow Hid Hcode Hnet. unfold get_consent_status. rewrite Hl.
  destruct (Z.ltb_spec (expires_at consent) now) as [Hlt|_]; [lia|].
  rewrite Hid. cbn. rewrite Hnet.
  by destruct (Z.eqb_spec code 200) as [?|_].
Qed.
End ConsentStore.

Section Sessions.
Context `{RT : PyRuntime}.

Local Abbreviation json := (Json pyfloat).

(** Past its expiry a tracked consent is answered [EXPIRED] without a
    request, whatever operations ran before and whatever status they left. *)
Theorem expiry_outlives_operations (net net' : Network) (c : Collector) (ops : list Op)
    (h : string) (consent : ConsentRequest) (now : Z) :
  active_consents c !! h = Some consent →
  Forall (λ o, creates o ≠ Some h) ops →
  expires_at consent < now →
  fst (get_consent_status net' (run_ops net ops c) h now) = EXPIRED
  ∧ net_log (snd (get_consent_status net' (run_ops net ops c) h now))
    = net_log (run_ops net ops c).
Proof.
  intros Hl Hfresh Hexp.
  destruct (run_ops_tracked net ops c h consent Hl Hfresh) as (s & Hs).
  unfold get_consent_status. rewrite Hs. cbn [expires_at set_status].
  by destruct (Z.ltb_spec (expires_at consent) now) as [_|?]; [|lia].
Qed.

(** With the status check [GRANTED], [request_fi_data] does not raise: it
    sends one POST to /FI/request after the status check, for the year up
    to now, and returns a dictionary that says whether it succeeded. *)
Theorem granted_request_posts_once (net : Network) (c : Collector) (h : string) (now : Z) :
  fst (get_consent_status net c h now) = GRANTED →
  ∃ consent d b,
    active_consents c !! h = Some consent
    ∧ fst (request_fi_data net c h now) = inr d
    ∧ assoc_get d "success" = Some (JBool b)
    ∧ (b = true → assoc_get d "consent_id" = Some (consent_id consent)
                  ∧ is_Some (assoc_get d "session_id"))
    ∧ net_log (snd (request_fi_data net c h now))
      = net_log (snd (get_consent_status net c h now))
        ++ [POST (api_base_url c +:+ "/FI/request")
              (fi_request_payload (consent_id consent) now)].
Proof.
  intros Hg.
  assert (Hurl : api_base_url (snd (get_consent_status net c h now)) = api_base_url c).
  { unfold get_consent_status.
    destruct (active_consents c !! h) as [consent|]; [|done].
    destruct (expires_at consent <? now); [done|].
    destruct (negb (truthy (consent_id consent))); [done|].
    cbn. destruct (net _ _) as [msg | code text body]; [done|].
    destruct (code =? 200); [|done].
    destruct body as [e | [ | | | | | | kv]]; try done.
    by destruct (dict_get kv "status" (JStr "")). }
  unfold request_fi_data.
  destruct (active_consents c !! h) as [consent|] eqn:Hl.
  2: { unfold get_consent_status in Hg. rewrite Hl in Hg. discriminate. }
  destruct (get_consent_status net c h now) as [st c1]. cbn [fst snd] in *. subst st.
  cbn [bool_decide negb]. rewrite bool_decide_eq_true_2 by done. cbn [negb].
  unfold fi_request_payload. rewrite Hurl. cbn.
  destruct (net _ _) as [msg | code text body].
  { exists consent. eexists. exists false. cbn. repeat split; done. }
  destruct (code =? 200).
  2: { exists consent. eexists. exists false. cbn. repeat split; done. }
  destruct body as [e | [ | | | | | | kv]];
    try (exists consent; eexists; exists false; cbn; repeat split; done).
  exists consent. eexists. exists true. cbn. repeat split; eauto.
Qed.

(** What [fetch_fi_data] returns is one of two shapes: a success with a
    frame, its row count and the time, and no error message; or a failure
    with an error message, no frame and a count of zero.  Either way it sent
    one GET for the session and left the stored consents alone. *)
Theorem fetch_result_shape (net : Network) (c : Collector) (session_id : string) (now : Z) :
  (success (fst (fetch_fi_data net c session_id now)) = true
   ∧ (∃ df, data (fst (fetch_fi_data net c session_id now)) = Some df
            ∧ records_collected (fst (fetch_fi_data net c session_id now)) = df_len df)
   ∧ error_message (fst (fetch_fi_data net c session_id now)) = None
   ∧ collection_timestamp (fst (fetch_fi_data net c session_id now)) = Some now
   ∨ success (fst (fetch_fi_data net c session_id now)) = false
     ∧ data (fst (fetch_fi_data net c session_id now)) = None
     ∧ records_collected (fst (fetch_fi_data net c session_id now)) = 0%nat
     ∧ is_Some (error_message (fst (fetch_fi_data net c session_id now)))
     ∧ metadata (fst (fetch_fi_data net c session_id now))
       = [("session_id", JStr session_id)])
  ∧ net_log (snd (fetch_fi_data net c session_id now))
    = net_log c ++ [GET (api_base_url c +:+ "/FI/fetch/" +:+ session_id)]
  ∧ active_consents (snd (fetch_fi_data net c session_id now)) = active_consents c.
Proof.
  unfold fetch_fi_data, session_send. cbn [fst snd length net_log api_base_url].
  assert (Hfail : ∀ msg,
            success (failed_result session_id msg) = false
            ∧ data (failed_result session_id msg) = None
            ∧ records_collected (failed_result session_id msg) = 0%nat
            ∧ is_Some (error_message (failed_result session_id msg))
            ∧ metadata (failed_result session_id msg) = [("session_id", JStr session_id)]).
  { intros msg. repeat split. by eexists. }
  destruct (net _ _) as [msg | code text body].
  { split; [right; by apply Hfail|done]. }
  destruct (code =? 200); [|split; [right; by apply Hfail|done]].
  destruct body as [e | payload]; [split; [right; by apply Hfail|done]|].
  destruct payload as [ | | | | | | kv];
    try (split; [right; by apply Hfail|done]).
  split; [left|done]. repeat split. eexists. split; reflexivity.
Qed.
End Sessions.

Section Journey.
Context `{RT : PyRuntime}.

Local Abbreviation json := (Json pyfloat).

(** From creation to a fetch session.  When the network accepts a creation
    with a duration in range and gives it a remote id, then answers the
    status check for that id with a status that upper-cases to ACTIVE, then
    accepts the request for data, a [request_fi_data] made before the expiry
    returns the session id of the last answer together with the remote id,
    and leaves the consent stored as [GRANTED]; three requests were sent. *)
Theorem creation_to_session (net : Network) (c : Collector) (uid : string)
    (fi_arg : option (list string)) (purpose_text : string) (days : Z)
    (mobile name : option string) (handle : string) (now now' : Z)
    (text0 text1 text2 : string)
    (created polled requested : list (string * json)) (s : string) :
  is_configured c = true →
  duration_in_range now days = true →
  net (length (net_log c))
      (POST (api_base_url c +:+ "/consents")
         (consent_payload c uid
            (match fi_arg with Some l => l | None => default_fi_types end)
            purpose_text days mobile now))
    = NetResponse 200 text0 (inr (JObj created)) →
  truthy (dict_get created "id" JNull) = true →
  net (S (length (net_log c)))
      (GET (api_base_url c +:+ "/Consent/handle/" +:+
            format_value (dict_get created "id" JNull)))
    = NetResponse 200 text1 (inr (JObj polled)) →
  dict_get polled "status" (JStr "") = JStr s →
  str_upper s = "ACTIVE"%string →
  net (S (S (length (net_log c))))
      (POST (api_base_url c +:+ "/FI/request")
         (fi_request_payload (dict_get created "id" JNull) now'))
    = NetResponse 200 text2 (inr (JObj requested)) →
  now' ≤ now + timedelta_days days →
  fst (request_fi_data net
         (snd (create_consent_request net c uid fi_arg purpose_text days mobile name handle now))
         handle now')
  = inr [ ("success", JBool true);
          ("session_id", dict_get requested "sessionId" JNull);
          ("consent_id", dict_get created "id" JNull);
          ("message", JStr "FI data request initiated successfully") ]
  ∧ stored_status
      (snd (request_fi_data net
              (snd (create_consent_request net c uid fi_arg purpose_text days mobile name
                      handle now))
              handle now'))
      handle = Some GRANTED
  ∧ length
      (net_log
         (snd (request_fi_data net
                 (snd (create_consent_request net c uid fi_arg purpose_text days mobile name
                         handle now))
                 handle now')))
    = (length (net_log c) + 3)%nat.
Proof.
  intros Hconf Hrange Hcreate Hid Hpoll Hstatus Hupper Hreq Hnow.
  unfold create_consent_request. rewrite Hconf, Hrange. cbn. rewrite Hcreate. cbn.
  unfold request_fi_data, get_consent_status, stored_status. cbn.
  rewrite lookup_insert_eq. cbn.
  destruct (Z.ltb_spec (now + timedelta_days days) now') as [?|_]; [lia|].
  rewrite Hid. cbn. rewrite length_app. cbn.
  replace (length (net_log c) + 1)%nat with (S (length (net_log c))) by lia.
  rewrite Hpoll. cbn. rewrite Hstatus, Hupper. cbn.
  rewrite length_app, length_app. cbn.
  replace (length (net_log c) + 1 + 1)%nat with (S (S (length (net_log c)))) by lia.
  unfold fi_request_payload in Hreq. rewrite Hreq. cbn.
  rewrite (bool_decide_eq_true_2 (GRANTED = GRANTED)) by done.
  cbn. rewrite lookup_insert_eq. cbn.
  split; [done|]. split; [done|]. rewrite !length_app. cbn. lia.
Qed.
End Journey.

Section Frames.
Context `{RT : PyRuntime}.

Local Abbreviation json := (Json pyfloat).
Local Abbreviation record := (list (string * Json pyfloat)).

(** A dict payload with no ["Accounts"] key, or with nothing to iterate
    under it, is fetched as a success with the empty frame of eleven columns
    and a count of zero. *)
Theorem empty_payload_is_empty_frame (net : Network) (c : Collector)
    (session_id : string) (now : Z) (text : string) (kv : list (string * json)) :
  net (length (net_log c)) (GET (api_base_url c +:+ "/FI/fetch/" +:+ session_id))
    = NetResponse 200 text (inr (JObj kv)) →
  py_iter (dict_get kv "Accounts" (JArr [])) = Ok [] →
  _process_setu_fi_data (JObj kv) now = empty_frame
  ∧ success (fst (fetch_fi_data net c session_id now)) = true
  ∧ data (fst (fetch_fi_data net c session_id now)) = Some empty_frame
  ∧ records_collected (fst (fetch_fi_data net c session_id now)) = 0%nat.
Proof.
  intros Hnet Hiter.
  assert (Hp : _process_setu_fi_data (JObj kv) now = empty_frame).
  { unfold _process_setu_fi_data, process_body. cbn [py_get bindE]. by rewrite Hiter. }
  split; [exact Hp|]. unfold fetch_fi_data. cbn. rewrite Hnet. cbn. by rewrite Hp.
Qed.

Lemma convert_date_column_rows (col : string) (df df' : DataFrame) :
  convert_date_column col df = Ok df' →
  df_columns df' = df_columns df
  ∧ (length <$> df_rows df') = (length <$> df_rows df).
Proof.
  unfold convert_date_column.
  destruct (index_of col (df_columns df)) as [i|]; [|by intros [= <-]].
  destruct (pd_to_datetime _) as [converted|]; [|discriminate].
  intros [= <-]. cbn. split; [done|].
  apply list_eq. intros k. rewrite !list_lookup_fmap, list_lookup_imap.
  destruct (df_rows df !! k) as [row|]; [|done]. cbn. by rewrite length_insert.
Qed.

Lemma convert_dates_rows (df df' : DataFrame) :
  convert_dates df = Ok df' →
  df_columns df' = df_columns df
  ∧ (length <$> df_rows df') = (length <$> df_rows df).
Proof.
  unfold convert_dates, date_columns. cbn [fold_left]. intros H.
  apply bindE_Ok in H as (d2 & H2 & H3).
  apply bindE_Ok in H2 as (d1 & H1 & H2).
  apply bindE_Ok in H1 as (d0 & [= <-] & H1).
  apply convert_date_column_rows in H1 as [C1 R1], H2 as [C2 R2], H3 as [C3 R3].
  split; congruence.
Qed.

Lemma summary_data_keys (account_info : json) (summary : record) :
  summary_data account_info = Ok summary → fst <$> summary = summary_keys.
Proof.
  destruct account_info as [ | | | | | | kv]; try discriminate. by intros [= <-].
Qed.

Lemma add_columns_keys (cols : list string) (r r' : record) :
  fst <$> r = fst <$> r' → add_columns cols r = add_columns cols r'.
Proof.
  unfold add_columns. revert cols r'.
  induction r as [|p r IH]; intros cols [|p' r']; try discriminate; [done|].
  cbn. intros [= Hp Hr]. rewrite Hp. by apply IH.
Qed.

(** Adding a record that has the account columns, or the account and
    transaction columns, to columns that have grown to one of the three
    levels. *)
Lemma add_columns_level (n m : nat) (r : record) :
  (n ≤ 2)%nat → (1 ≤ m ≤ 2)%nat →
  fst <$> r = columns_at m →
  add_columns (columns_at n) r = columns_at (Nat.max n m).
Proof.
  intros Hn Hm Hr.
  rewrite (add_columns_keys _ r ((λ k, (k, JNull)) <$> columns_at m)).
  2: { rewrite Hr, <- list_fmap_compose. symmetry. apply list_fmap_id. }
  assert (Hnn : (n = 0 ∨ n = 1 ∨ n = 2)%nat) by lia.
  assert (Hmm : (m = 1 ∨ m = 2)%nat) by lia.
  destruct Hnn as [Hn0 | [Hn1 | Hn2]]; destruct Hmm as [Hm1 | Hm2]; subst n m;
    reflexivity.
Qed.

Lemma account_group_columns (account : json) (group : list record) (n : nat) :
  (n ≤ 2)%nat →
  emitted_for account group →
  fold_left add_columns group (columns_at n) = columns_at (Nat.max n (account_level account)).
Proof.
  intros Hn (account_info & summary & _ & Hsum & Hgroup).
  pose proof (summary_data_keys _ _ Hsum) as Hkeys.
  unfold account_level, has_no_transactions.
  destruct (transactions_of account) as [|txn txns].
  - subst group. cbn [fold_left]. apply (add_columns_level n 1); [done | lia | exact Hkeys].
  - assert (Hall : Forall (λ r, fst <$> r = columns_at 2) group).
    { clear -Hgroup Hsum Hkeys. induction Hgroup as [|t r ts rs [Hr _] _ IH]; constructor.
      - destruct (transaction_data_extends _ _ _ _ Hsum Hr) as (fields & -> & Hf).
        by rewrite fmap_app, Hkeys, Hf.
      - exact IH. }
    apply Forall2_length in Hgroup. destruct group as [|r rs]; [discriminate|].
    apply Forall_cons in Hall as [Hr Hrs]. cbn [fold_left].
    rewrite (add_columns_level n 2 r); [|done|lia|exact Hr].
    replace (Nat.max n 2)%nat with 2%nat by lia.
    clear -Hrs. induction Hrs as [|r' rs' Hr' _ IH]; [done|].
    cbn [fold_left]. rewrite (add_columns_level 2 2 r'); [exact IH|lia|lia|exact Hr'].
Qed.

Lemma account_groups_columns (accounts : list json) (groups : list (list record)) (n : nat) :
  (n ≤ 2)%nat →
  Forall2 emitted_for accounts groups →
  fold_left add_columns (concat groups) (columns_at n)
  = columns_at (fold_left (λ m a, Nat.max m (account_level a)) accounts n).
Proof.
  intros Hn Hall. revert n Hn.
  induction Hall as [|a g accounts groups Hg _ IH]; intros n Hn; [done|].
  cbn [concat fold_left]. rewrite fold_left_app, (account_group_columns a g n Hn Hg).
  apply IH. unfold account_level. destruct (has_no_transactions a); lia.
Qed.

Lemma account_levels (accounts : list json) (n : nat) :
  fold_left (λ m a, Nat.max m (account_level a)) accounts n
  = match accounts with
    | [] => n
    | _ => if (sum_list ((λ a, length (transactions_of a)) <$> accounts) =? 0)%nat
           then (Nat.max n 1) else (Nat.max n 2)
    end%nat.
Proof.
  revert n. induction accounts as [|a accounts IH]; intros n; [done|].
  cbn [fold_left]. rewrite IH, fmap_cons.
  unfold account_level, has_no_transactions.
  destruct (transactions_of a) as [|t ts]; destruct accounts as [|a' accounts'];
    simpl; try lia; destruct (_ =? _)%nat; lia.
Qed.

(** The columns of the frame depend on what the payload held.  With no
    account it is the fixed frame of eleven columns; with accounts but no
    transaction, the eight account columns; with a transaction anywhere, the
    eight account columns followed by the eight transaction columns. *)
Theorem normalised_columns (fi_data : json) (df : DataFrame) :
  process_body fi_data = Ok df →
  df_columns df
  = match accounts_of fi_data with
    | [] => df_columns empty_frame
    | _ => if (total_transactions fi_data =? 0)%nat
           then summary_keys
           else summary_keys ++ transaction_keys
    end.
Proof.
  intros Hbody.
  destruct (process_body_spec _ _ Hbody) as (groups & Hrun & Hall & _ & _).
  pose proof (account_groups_columns _ _ 0%nat (Nat.le_0_l 2) Hall) as Hcols.
  rewrite account_levels in Hcols. unfold total_transactions.
  unfold process_body in Hbody.
  apply bindE_Ok in Hbody as (accounts & Hacc & H).
  apply bindE_Ok in H as (items & Hitems & H).
  apply bindE_Ok in H as (records & Hrecs & H).
  assert (Hof : accounts_of fi_data = items).
  { unfold accounts_of. by rewrite Hacc; cbn; rewrite Hitems. }
  rewrite Hof in *. rewrite Hrun in Hrecs. injection Hrecs as <-.
  destruct items as [|a items].
  - apply Forall2_nil_inv_l in Hall as ->. cbn in H. by injection H as <-.
  - destruct (concat groups) as [|r rs] eqn:Hc.
    + exfalso. apply Forall2_cons_inv_l in Hall as (g & gs & Hg & _ & ->).
      cbn in Hc. apply app_eq_nil in Hc as [-> _].
      destruct Hg as (? & ? & _ & _ & Hg). destruct (transactions_of a); [discriminate|].
      apply Forall2_length in Hg. discriminate.
    + apply convert_dates_rows in H as [-> _]. unfold frame_of_records.
      cbn [df_columns]. change (fold_left add_columns (r :: rs) [])
        with (fold_left add_columns (r :: rs) (columns_at 0)).
      rewrite Hcols. by destruct (_ =? 0)%nat.
Qed.
End Frames.

Section Setup.
Context `{RT : PyRuntime}.

Local Abbreviation json := (Json pyfloat).

(** [configure] never touches the stored consents or the requests sent.
    When it returns [True] the collector is configured and the id and secret
    it took are true values; when it returns [False] the collector is
    configured exactly if it was before. *)
Theorem configure_outcome (config : json) (c : Collector) (k : Credentials) :
  active_consents (fst (snd (configure config c k))) = active_consents c
  ∧ net_log (fst (snd (configure config c k))) = net_log c
  ∧ (fst (configure config c k) = true →
       is_configured (fst (snd (configure config c k))) = true
       ∧ truthy (client_id (fst (snd (configure config c k)))) = true
       ∧ truthy (client_secret (snd (snd (configure config c k)))) = true
       ∧ assoc_get (session_headers (snd (snd (configure config c k)))) "x-client-id"
         = Some (client_id (fst (snd (configure config c k)))))
  ∧ (fst (configure config c k) = false →
       is_configured (fst (snd (configure config c k))) = is_configured c
       ∧ session_headers (snd (snd (configure config c k))) = session_headers k).
Proof.
  unfold configure. destruct config as [ | | | | | | kv]; try done.
  destruct (truthy (dict_get kv "api_base_url" _)) eqn:Hu; cbn [andb]; [|done].
  destruct (truthy (dict_get kv "client_id" _)) eqn:Hi; cbn [andb]; [|done].
  destruct (truthy (dict_get kv "client_secret" _)) eqn:Hs; cbn [andb]; [|done].
  cbn. repeat split; try done.
  unfold dict_update. cbn [fold_left fst snd].
  generalize (dict_set (session_headers k) "Content-Type" (JStr "application/json" : json)).
  intros headers.
  assert (Hset : ∀ (l : list (string * json)) key v, assoc_get (dict_set l key v) key = Some v).
  { induction l as [|[k0 v0] l IH]; intros key v; cbn.
    - by rewrite String.eqb_refl.
    - destruct (String.eqb_spec k0 key) as [->|Hne]; cbn.
      + by rewrite String.eqb_refl.
      + destruct (String.eqb_spec k0 key); [done|]. apply IH. }
  assert (Hother : ∀ (l : list (string * json)) key key' v, key ≠ key' →
            assoc_get (dict_set l key v) key' = assoc_get l key').
  { induction l as [|[k0 v0] l IH]; intros key key' v Hne; cbn.
    - by destruct (String.eqb_spec key key').
    - destruct (String.eqb_spec k0 key) as [->|Hk]; cbn.
      + destruct (String.eqb_spec key key'); [done|]. done.
      + destruct (String.eqb_spec k0 key'); [done|]. by apply IH. }
  rewrite Hother by done. apply Hset.
Qed.

Lemma configure_failed_state (config : json) (c : Collector) (k : Credentials) :
  fst (configure config c k) = false →
  is_configured (fst (snd (configure config c k))) = is_configured c
  ∧ net_log (fst (snd (configure config c k))) = net_log c.
Proof.
  unfold configure. destruct config as [ | | | | | | kv]; try done.
  by destruct (truthy _ && truthy _ && truthy _).
Qed.

(** A collector that was configured stays usable after a [configure] that
    failed: a creation with a duration in range still goes to the network,
    under whatever id the failed call left. *)
Theorem failed_configure_keeps_collector_usable (config : json) (c : Collector)
    (k : Credentials) (net : Network) (uid : string) (fi_arg : option (list string))
    (purpose_text : string) (days : Z) (mobile name : option string)
    (handle : string) (now : Z) :
  is_configured c = true →
  fst (configure config c k) = false →
  duration_in_range now days = true →
  ∃ consent,
    fst (create_consent_request net (fst (snd (configure config c k))) uid fi_arg
           purpose_text days mobile name handle now) = Ok consent
    ∧ length (net_log (snd (create_consent_request net (fst (snd (configure config c k)))
                              uid fi_arg purpose_text days mobile name handle now)))
      = S (length (net_log c)).
Proof.
  intros Hconf Hfail Hrange.
  destruct (configure_failed_state config c k Hfail) as [Hc Hlog]. rewrite Hconf in Hc.
  unfold create_consent_request. rewrite Hc, Hrange. cbn. rewrite Hlog.
  destruct (net _ _) as [msg | code text body]; cbn.
  { eexists. split; [done|]. rewrite length_app. cbn. lia. }
  destruct (code =? 200); cbn.
  2: { eexists. split; [done|]. rewrite length_app. cbn. lia. }
  destruct body as [e | [ | | | | | | kv]]; cbn;
    (eexists; split; [done|]; rewrite length_app; cbn; lia).
Qed.

(** With neither a session id nor a handle, and a duration in range (30
    days when none is given), [collect_data] on a configured collector
    reports success whatever became of the creation: the result carries the
    status of the consent, [pending] or [denied], and no error. *)
Theorem collect_data_reports_creation_as_success (net : Network) (c : Collector)
    (uid : string) (kwargs : CollectArgs) (handle : string) (now : Z) :
  is_configured c = true →
  given (kw_session_id kwargs) = None →
  given (kw_consent_handle kwargs) = None →
  duration_in_range now (default 30 (kw_duration_days kwargs)) = true →
  ∃ r st,
    fst (collect_data net c uid kwargs handle now) = inr r
    ∧ success r = true
    ∧ error_message r = None
    ∧ data r = None
    ∧ assoc_get (metadata r) "consent_status" = Some (JStr (status_value st))
    ∧ (st = PENDING ∨ st = DENIED)
    ∧ (accepted (net (length (net_log c))
                   (POST (api_base_url c +:+ "/consents")
                      (consent_payload c uid
                         (default ["DEPOSIT"; "TERM_DEPOSIT"]%string (kw_fi_types kwargs))
                         (default "Credit Assessment"%string (kw_purpose kwargs))
                         (default 30 (kw_duration_days kwargs))
                         (kw_customer_mobile kwargs) now))) = false
       → st = DENIED).
Proof.
  intros Hconf Hs Hh Hrange. unfold collect_data. rewrite Hs, Hh.
  unfold create_consent_request. rewrite Hconf, Hrange. cbn.
  destruct (net _ _) as [msg | code text body]; cbn.
  { eexists; exists DENIED. repeat split; eauto. }
  destruct (code =? 200) eqn:Hc; cbn.
  2: { eexists; exists DENIED. repeat split; eauto. }
  destruct body as [e | [ | | | | | | kv]]; cbn;
    try (eexists; exists DENIED; repeat split; eauto; fail).
  eexists; exists PENDING. repeat split; eauto. discriminate.
Qed.

(** With a handle whose status check does not come back [GRANTED],
    [collect_data] does not return a failed result: the [ValueError] of
    [request_fi_data] passes through it. *)
Theorem collect_data_raises_without_grant (net : Network) (c : Collector)
    (uid : string) (kwargs : CollectArgs) (h handle : string) (now : Z) :
  given (kw_session_id kwargs) = None →
  given (kw_consent_handle kwargs) = Some h →
  fst (get_consent_status net c h now) ≠ GRANTED →
  ∃ msg, fst (collect_data net c uid kwargs handle now) = inl msg.
Proof.
  intros Hs Hh Hng. unfold collect_data. rewrite Hs, Hh. unfold request_fi_data.
  destruct (active_consents c !! h); [|cbn; eauto].
  destruct (get_consent_status net c h now) as [st c1]. cbn [fst] in Hng.
  rewrite bool_decide_eq_false_2 by done. cbn. eauto.
Qed.

(** For a duration in range, as every validated request has, the route that
    starts the flow answers 400 whenever the creation was not accepted by
    the network, whether rejected, unreachable or answered with something
    that is not a JSON object; and a response it does give is for a consent
    stored under the handle it names, with status [pending]. *)
Theorem initiate_aa_flow_outcome (net : Network) (c : Collector) (uid mobile : string)
    (name : option string) (fi : list string) (purpose_text : string) (days : Z)
    (handle : string) (now : Z) :
  is_configured c = true →
  (accepted (net (length (net_log c))
               (POST (api_base_url c +:+ "/consents")
                  (consent_payload c uid fi purpose_text days (Some mobile) now))) = false →
   fst (ConsentRoutes.initiate_aa_flow net c uid mobile name fi purpose_text days handle now)
   = if duration_in_range now days
     then inl (Routes.mkHTTPException 400 (JStr "Failed to create consent request"))
     else inl (Routes.mkHTTPException 500
                 (JStr ("Internal server error: " +:+ overflow_text now days))))
  ∧ (∀ resp,
       fst (ConsentRoutes.initiate_aa_flow net c uid mobile name fi purpose_text days
              handle now) = inr resp →
       ConsentRoutes.aa_status resp = "pending"%string
       ∧ ConsentRoutes.aa_consent_handle resp = handle
       ∧ ConsentRoutes.aa_expires_at resp = now + timedelta_days days
       ∧ stored_status
           (snd (ConsentRoutes.initiate_aa_flow net c uid mobile name fi purpose_text days
                   handle now)) handle = Some PENDING).
Proof.
  intros Hconf.
  unfold ConsentRoutes.initiate_aa_flow, create_consent_request, stored_status.
  rewrite Hconf. cbn [negb].
  destruct (duration_in_range now days); cbn; [|split; [done|discriminate]].
  destruct (net _ _) as [msg | code text body]; cbn; [split; [done|discriminate]|].
  destruct (code =? 200) eqn:Hc; cbn; [|split; [done|discriminate]].
  destruct body as [e | [ | | | | | | kv]]; cbn; try (split; [done|discriminate]).
  rewrite (bool_decide_eq_false_2 (PENDING = DENIED)) by done.
  split; [discriminate|]. intros resp.
  destruct (validate_optional_str (dict_get kv "id" JNull)) as [e1|cid];
    destruct (validate_optional_str (dict_get kv "url" JNull)) as [e2|curl];
    try discriminate.
  intros [= <-]. cbn. by rewrite lookup_insert_eq.
Qed.

(** The route [request_fi_data] checks the status and then calls the
    collector, which checks it again.  When the first check says [GRANTED]
    and the second does not, the caller gets a 500 with the collector's
    text, not the 400 that names the status, and the requests sent are
    exactly those of the two status checks: no request for data has gone
    out. *)
Theorem second_status_check_answers_500 (net : Network) (c : Collector) (h : string)
    (now1 now2 : Z) :
  fst (get_consent_status net c h now1) = GRANTED →
  fst (get_consent_status net (snd (get_consent_status net c h now1)) h now2) ≠ GRANTED →
  fst (Routes.request_fi_data net c h now1 now2)
  = inl (Routes.mkHTTPException 500
           (JStr "Internal server error: Consent not granted or expired"))
  ∧ net_log (snd (Routes.request_fi_data net c h now1 now2))
    = net_log c ++ status_requests c h now1
      ++ status_requests (snd (get_consent_status net c h now1)) h now2.
Proof.
  intros Hg Hng.
  assert (Htracked : is_Some (active_consents (snd (get_consent_status net c h now1)) !! h)).
  { destruct (active_consents c !! h) as [consent|] eqn:Hl.
    - destruct (get_consent_status_same net c h consent now1 Hl) as (s' & -> & _). eauto.
    - unfold get_consent_status in Hg. rewrite Hl in Hg. discriminate. }
  pose proof (get_consent_status_log net c h now1) as Hlog1.
  pose proof (get_consent_status_log net (snd (get_consent_status net c h now1)) h now2)
    as Hlog2.
  unfold Routes.request_fi_data.
  destruct (get_consent_status net c h now1) as [st c1]. cbn [fst snd] in *. subst st.
  rewrite bool_decide_eq_true_2 by done. cbn [negb].
  unfold request_fi_data. destruct Htracked as [consent ->].
  destruct (get_consent_status net c1 h now2) as [st2 c2]. cbn [fst snd] in *.
  rewrite bool_decide_eq_false_2 by done. cbn. split; [done|].
  by rewrite Hlog2, Hlog1, app_assoc.
Qed.
End Setup.

Section DeviceData.
Context `{RT : PyRuntime}.
Variable json_loads : string → string + Json pyfloat.
Variable exception_text : PyExn → string.
Variable pd_assign : Json pyfloat → Exc (Cell pyfloat).

Local Abbreviation json := (Json pyfloat).
Local Abbreviation cell := (Cell pyfloat).
Local Abbreviation process_device_data :=
  (Device.process_device_data json_loads exception_text pd_assign).
Local Abbreviation device_collect_data :=
  (Device.collect_data json_loads exception_text pd_assign).

Lemma frame_set_rows (col : string) (x : cell) (df : DataFrame) :
  Forall (λ row, length row = length (df_columns df)) (df_rows df) →
  df_len (Device.frame_set col x df) = df_len df
  ∧ Forall (λ row, length row = length (df_columns (Device.frame_set col x df)))
      (df_rows (Device.frame_set col x df)).
Proof.
  intros Hfull. unfold Device.frame_set, df_len.
  destruct (index_of col (df_columns df)) as [i|]; cbn; rewrite length_fmap;
    (split; [done|]); apply Forall_fmap; eapply Forall_impl; [exact Hfull| |exact Hfull|];
    cbn; intros row Hrow.
  - by rewrite length_insert.
  - rewrite !length_app, Hrow. done.
Qed.

Lemma index_of_Some (col : string) (cols : list string) (i : nat) :
  index_of col cols = Some i → col ∈ cols.
Proof.
  revert i. induction cols as [|c0 cols IH]; intros i; cbn; [discriminate|].
  destruct (String.eqb_spec c0 col) as [->|_]; [intros _; by left|].
  destruct (index_of col cols) as [j|]; [|discriminate].
  intros _. right. by eapply IH.
Qed.

Lemma frame_set_columns (col : string) (x : cell) (df : DataFrame) :
  col ∈ df_columns (Device.frame_set col x df)
  ∧ ∀ c0, c0 ∈ df_columns df → c0 ∈ df_columns (Device.frame_set col x df).
Proof.
  unfold Device.frame_set.
  destruct (index_of col (df_columns df)) as [i|] eqn:Hi; cbn.
  - split; [by eapply index_of_Some|done].
  - split; [set_solver|set_solver].
Qed.

(** What [process_device_data] returns is one of two shapes.  A success has
    a frame of exactly one row, rectangular, with the columns [user_id] and
    [collection_timestamp], a count of one and no error, and the collector
    remembers the time.  A failure has an error message, no frame and no
    metadata, and leaves the collector as it was. *)
Theorem device_result_shape (d : Device.DeviceDataCollector) (raw : json) (now : Z) :
  (success (fst (process_device_data d raw now)) = true
   ∧ error_message (fst (process_device_data d raw now)) = None
   ∧ records_collected (fst (process_device_data d raw now)) = 1%nat
   ∧ (∃ df, data (fst (process_device_data d raw now)) = Some df
            ∧ df_len df = 1%nat
            ∧ Forall (λ row, length row = length (df_columns df)) (df_rows df)
            ∧ "user_id"%string ∈ df_columns df
            ∧ "collection_timestamp"%string ∈ df_columns df)
   ∧ Device.last_collection_time (snd (process_device_data d raw now)) = Some now)
  ∨ (success (fst (process_device_data d raw now)) = false
     ∧ is_Some (error_message (fst (process_device_data d raw now)))
     ∧ records_collected (fst (process_device_data d raw now)) = 0%nat
     ∧ data (fst (process_device_data d raw now)) = None
     ∧ metadata (fst (process_device_data d raw now)) = []
     ∧ snd (process_device_data d raw now) = d).
Proof.
  unfold Device.process_device_data.
  assert (Hfail : ∀ msg,
            success (Device.failure msg) = false
            ∧ is_Some (error_message (Device.failure msg))
            ∧ records_collected (Device.failure msg) = 0%nat
            ∧ data (Device.failure msg) = None
            ∧ metadata (Device.failure msg) = []
            ∧ d = d).
  { intros msg. repeat split. by eexists. }
  destruct (match raw with JStr s => json_loads s | _ => inr raw end) as [e|value].
  { right. apply Hfail. }
  unfold Device.process_parsed.
  destruct (Device._validate_device_data d value) as [[|]|e]; cbn [bindE negb].
  2, 3: right; apply Hfail.
  destruct (py_get value "user_id" JNull) as [user_id|e]; cbn [bindE].
  2: right; apply Hfail.
  destruct (truthy user_id); cbn [negb].
  2: right; apply Hfail.
  destruct value as [ | | | | | | kv]; try (right; apply Hfail).
  destruct (Device.add_section kv "device_info" _ _) as [p1|e]; cbn [bindE].
  2: right; apply Hfail.
  destruct (Device.add_section kv "app_usage" _ _) as [p2|e]; cbn [bindE].
  2: right; apply Hfail.
  destruct (Device.add_section kv "network_behavior" _ _) as [p3|e]; cbn [bindE].
  2: right; apply Hfail.
  destruct (Device.add_section kv "location_data" _ _) as [p4|e]; cbn [bindE].
  2: right; apply Hfail.
  destruct (Device.cell_of pd_assign user_id) as [user_cell|e]; cbn [bindE].
  2: right; apply Hfail.
  left. cbn [fst snd success error_message records_collected data
             Device.last_collection_time].
  split; [done|]. split; [done|]. split; [done|]. split; [|done].
  eexists. split; [reflexivity|].
  assert (H0 : Forall (λ row, length row = length (df_columns (frame_of_records [p4])))
                 (df_rows (frame_of_records [p4]))).
  { unfold frame_of_records. cbn [df_rows df_columns fmap list_fmap].
    constructor; [|done]. by rewrite length_fmap. }
  destruct (frame_set_rows "user_id" user_cell _ H0) as [L1 F1].
  destruct (frame_set_rows "collection_timestamp" (CTimestamp now) _ F1) as [L2 F2].
  destruct (frame_set_columns "user_id" user_cell (frame_of_records [p4])) as [C1 _].
  destruct (frame_set_columns "collection_timestamp" (CTimestamp now)
              (Device.frame_set "user_id" user_cell (frame_of_records [p4]))) as [C2 K2].
  split; [by rewrite L2, L1|]. split; [exact F2|]. split; [by apply K2 | exact C2].
Qed.

(** A dict without the key [user_id] is refused as an invalid structure; one
    whose [user_id] is a false value (null, empty, zero) is refused for the
    missing id once the supported types check out. *)
Theorem device_user_id_is_required (d : Device.DeviceDataCollector)
    (kv : list (string * json)) (now : Z) :
  (assoc_get kv "user_id" = None →
   process_device_data d (JObj kv) now = (Device.failure "Invalid data structure", d))
  ∧ (∀ v, assoc_get kv "user_id" = Some v → truthy v = false →
          Device.supported_types d = Ok tt →
          process_device_data d (JObj kv) now
          = (Device.failure "Missing user_id in data", d)).
Proof.
  unfold Device.process_device_data, Device.process_parsed, Device._validate_device_data.
  cbn [Device.contains_str bindE py_get]. split.
  - by intros ->.
  - intros v Hv Hf Hs. unfold dict_get. rewrite Hv, Hs. cbn. by rewrite Hf.
Qed.

(** Keys the collector does not know never cause a refusal: a dict with a
    true scalar [user_id] and none of the four sections is a success with
    the two columns [user_id] and [collection_timestamp], whatever else it
    holds, and all its keys are listed as the data types. *)
Theorem device_unsupported_keys_are_accepted (d : Device.DeviceDataCollector)
    (kv : list (string * json)) (v : json) (now : Z) :
  Device.supported_types d = Ok tt →
  assoc_get kv "user_id" = Some v →
  truthy v = true →
  Device.hashable v = true →
  assoc_get kv "device_info" = None →
  assoc_get kv "app_usage" = None →
  assoc_get kv "network_behavior" = None →
  assoc_get kv "location_data" = None →
  fst (process_device_data d (JObj kv) now)
  = {| success := true;
       data := Some {| df_columns := ["user_id"; "collection_timestamp"]%string;
                       df_rows := [[CVal v; CTimestamp now]] |};
       metadata := [ ("user_id", v);
                     ("data_source", JStr "device_data");
                     ("data_types", JArr ((λ p, JStr (fst p)) <$> kv));
                     ("collection_method", JStr "mobile_app") ];
       error_message := None; records_collected := 1%nat;
       collection_timestamp := Some now |}.
Proof.
  intros Hs Hv Ht Hh H1 H2 H3 H4.
  unfold Device.process_device_data, Device.process_parsed, Device._validate_device_data,
    Device.add_section.
  cbn [Device.contains_str bindE py_get]. unfold dict_get.
  rewrite Hv, Hs, H1, H2, H3, H4. cbn [bindE negb]. rewrite Ht. cbn [bindE negb].
  destruct v; try discriminate; reflexivity.
Qed.

Lemma dict_set_get {V : Type} (l : list (string * V)) (key : string) (x : V) :
  assoc_get (dict_set l key x) key = Some x.
Proof.
  induction l as [|[k0 v0] l IH]; cbn.
  - by rewrite String.eqb_refl.
  - destruct (String.eqb_spec k0 key) as [->|Hne]; cbn.
    + by rewrite String.eqb_refl.
    + by destruct (String.eqb_spec k0 key).
Qed.

Lemma device_success_names_user (d : Device.DeviceDataCollector)
    (kv : list (string * json)) (v : json) (now : Z) :
  assoc_get kv "user_id" = Some v →
  success (fst (process_device_data d (JObj kv) now)) = true →
  assoc_get (metadata (fst (process_device_data d (JObj kv) now))) "user_id" = Some v
  ∧ truthy v = true.
Proof.
  intros Hv. unfold Device.process_device_data, Device.process_parsed.
  destruct (Device._validate_device_data d _) as [[|]|e]; cbn [bindE negb];
    try discriminate.
  cbn [py_get bindE]. unfold dict_get. rewrite !Hv.
  destruct (truthy v); cbn [negb]; [|discriminate].
  destruct (Device.add_section _ "device_info" _ _) as [p1|e]; cbn [bindE];
    [|discriminate].
  destruct (Device.add_section _ "app_usage" _ _) as [p2|e]; cbn [bindE];
    [|discriminate].
  destruct (Device.add_section _ "network_behavior" _ _) as [p3|e]; cbn [bindE];
    [|discriminate].
  destruct (Device.add_section _ "location_data" _ _) as [p4|e]; cbn [bindE];
    [|discriminate].
  destruct (Device.cell_of pd_assign _) as [user_cell|e]; cbn [bindE];
    [|discriminate].
  intros _. split; reflexivity.
Qed.

(** [collect_data] puts the caller's [user_id] in a dict of device data: a
    success names that user in its metadata, whatever user the data named,
    and there is no success for an empty [user_id]. *)
Theorem device_collect_uses_callers_user_id (d : Device.DeviceDataCollector)
    (uid : string) (kv : list (string * json)) (now : Z) :
  kv ≠ [] →
  success (fst (device_collect_data d uid (JObj kv) now)) = true →
  assoc_get (metadata (fst (device_collect_data d uid (JObj kv) now))) "user_id"
  = Some (JStr uid)
  ∧ uid ≠ ""%string.
Proof.
  intros Hkv. unfold Device.collect_data. destruct kv as [|p kv]; [done|].
  cbn [truthy negb]. intros Hok.
  destruct (device_success_names_user d (dict_set (p :: kv) "user_id" (JStr uid))
              (JStr uid) now (dict_set_get _ _ _) Hok) as [Hmeta Htrue].
  split; [exact Hmeta|]. intros ->. discriminate.
Qed.

(** [configure] takes any value as the supported data types, and a value
    that is not a list is only found out later: after such a configuration
    every dict that has a [user_id] key fails with the text of a
    [TypeError]. *)
Theorem device_bad_supported_types_fail_later (d : Device.DeviceDataCollector)
    (ckv kv : list (string * json)) (bad v : json) (now : Z) :
  assoc_get ckv "supported_data_types" = Some bad →
  (∀ l, bad ≠ JArr l) →
  assoc_get kv "user_id" = Some v →
  fst (Device.configure (JObj ckv) d) = true
  ∧ process_device_data (snd (Device.configure (JObj ckv) d)) (JObj kv) now
    = (Device.failure (exception_text TypeError), snd (Device.configure (JObj ckv) d)).
Proof.
  intros Hbad Hnl Hv. split; [done|].
  unfold Device.process_device_data, Device.process_parsed, Device._validate_device_data,
    Device.supported_types.
  cbn [Device.contains_str bindE Device.configure snd Device.supported_data_types].
  rewrite Hv. cbn [negb]. unfold dict_get. rewrite Hbad.
  destruct bad as [ | | | | | l | ]; try reflexivity. by destruct (Hnl l).
Qed.
End DeviceData.

Section FurtherExamples.
#[local] Existing Instance demo_runtime.

Lemma create_success_is_stored_witness :
  ∃ consent,
    fst (create_consent_request Scenario.net_journey (Demo.collector ∅) "user-42"
           (Some ["DEPOSIT"%string]) "Credit Assessment" 30 None None "H1" 0) = Ok consent
    ∧ active_consents
        (snd (create_consent_request Scenario.net_journey (Demo.collector ∅) "user-42"
                (Some ["DEPOSIT"%string]) "Credit Assessment" 30 None None "H1" 0))
        !! "H1" = Some consent
    ∧ status consent = PENDING
    ∧ consent_id consent = JStr "R1".
Proof.
  destruct (@create_success_is_stored demo_runtime Scenario.net_journey (Demo.collector ∅)
              "user-42" (Some ["DEPOSIT"%string]) "Credit Assessment" 30 None None "H1" 0 ""
              [("id", JStr "R1"); ("url", JStr "https://consent.example/R1")]
              eq_refl eq_refl eq_refl) as (consent & H1 & H2 & H3 & H4 & _).
  exists consent. repeat split; assumption.
Defined.

Lemma create_rejected_is_stored_witness :
  stored_status
    (snd (create_consent_request Demo.net_reject (Demo.collector ∅) "user-42"
            None "Credit Assessment" 30 None None "H1" 0)) "H1" = Some DENIED.
Proof.
  apply (@create_rejected_is_stored demo_runtime Demo.net_reject (Demo.collector ∅)
           "user-42" None "Credit Assessment" 30 None None "H1" 0
           500 "Internal Server Error" (inl "Expecting value"%string));
    [reflexivity | reflexivity | discriminate | reflexivity].
Defined.

Lemma unstored_handle_is_denied_witness :
  fst (get_consent_status Scenario.net_journey
         (snd (create_consent_request Demo.net_down (Demo.collector ∅) "user-42"
                 None "Credit Assessment" 30 None None "H1" 0))
         "H1" (timedelta_days 31)) = DENIED.
Proof.
  exact (f_equal fst
           (proj1 (@unstored_handle_is_denied demo_runtime Demo.net_down Scenario.net_journey
                     (Demo.collector ∅) "user-42" None "Credit Assessment" 30 None None
                     "H1" 0 (timedelta_days 31) "Connection refused"
                     eq_refl eq_refl eq_refl))).
Defined.

Lemma returned_status_is_stored_witness :
  stored_status
    (snd (get_consent_status (Demo.net_ok (Demo.remote_status "ACTIVE"))
            (Demo.tracking PENDING (JStr "R1") 100) "H1" 50)) "H1"
  = Some (fst (get_consent_status (Demo.net_ok (Demo.remote_status "ACTIVE"))
                 (Demo.tracking PENDING (JStr "R1") 100) "H1" 50)).
Proof.
  apply (@returned_status_is_stored demo_runtime (Demo.net_ok (Demo.remote_status "ACTIVE"))
           (Demo.tracking PENDING (JStr "R1") 100) "H1"
           (Demo.consent PENDING (JStr "R1") 100) 50);
    [reflexivity | vm_compute; discriminate].
Defined.

Lemma rejected_status_request_keeps_cache_witness :
  fst (get_consent_status Demo.net_reject (Demo.tracking GRANTED (JStr "R1") 100) "H1" 50)
  = GRANTED
  ∧ active_consents
      (snd (get_consent_status Demo.net_reject
              (Demo.tracking GRANTED (JStr "R1") 100) "H1" 50))
    = active_consents (Demo.tracking GRANTED (JStr "R1") 100).
Proof.
  apply (@rejected_status_request_keeps_cache demo_runtime Demo.net_reject
           (Demo.tracking GRANTED (JStr "R1") 100) "H1"
           (Demo.consent GRANTED (JStr "R1") 100) 50
           500 "Internal Server Error" (inl "Expecting value"%string));
    [reflexivity | cbn; lia | reflexivity | discriminate | reflexivity].
Defined.

Lemma expiry_outlives_operations_witness :
  fst (get_consent_status Demo.net_down
         (run_ops Scenario.net_flapping [OpGetStatus "H1" 10]
            (Demo.tracking PENDING (JStr "R1") 100)) "H1" 101) = EXPIRED
  ∧ net_log (snd (get_consent_status Demo.net_down
                    (run_ops Scenario.net_flapping [OpGetStatus "H1" 10]
                       (Demo.tracking PENDING (JStr "R1") 100)) "H1" 101))
    = net_log (run_ops Scenario.net_flapping [OpGetStatus "H1" 10]
                 (Demo.tracking PENDING (JStr "R1") 100)).
Proof.
  apply (@expiry_outlives_operations demo_runtime Scenario.net_flapping Demo.net_down
           (Demo.tracking PENDING (JStr "R1") 100) [OpGetStatus "H1" 10] "H1"
           (Demo.consent PENDING (JStr "R1") 100) 101).
  - reflexivity.
  - repeat constructor; discriminate.
  - cbn; lia.
Defined.

Lemma granted_request_posts_once_witness :
  ∃ d b,
    fst (request_fi_data (Demo.net_ok (Demo.remote_status "ACTIVE"))
           (Demo.tracking PENDING (JStr "R1") 100) "H1" 50) = inr d
    ∧ assoc_get d "success" = Some (JBool b).
Proof.
  destruct (@granted_request_posts_once demo_runtime
              (Demo.net_ok (Demo.remote_status "ACTIVE"))
              (Demo.tracking PENDING (JStr "R1") 100) "H1" 50 eq_refl)
    as (consent & d & b & _ & Hd & Hb & _).
  exists d, b. split; assumption.
Defined.

Lemma creation_to_session_witness :
  fst (request_fi_data Scenario.net_journey
         (snd (create_consent_request Scenario.net_journey (Demo.collector ∅) "user-42"
                 (Some ["DEPOSIT"%string]) "Credit Assessment" 30 None None "H1" 0))
         "H1" 60)
  = inr [ ("success", JBool true);
          ("session_id", JStr "S1");
          ("consent_id", JStr "R1");
          ("message", JStr "FI data request initiated successfully") ].
Proof.
  exact (proj1 (@creation_to_session demo_runtime Scenario.net_journey (Demo.collector ∅)
                  "user-42" (Some ["DEPOSIT"%string]) "Credit Assessment" 30 None None
                  "H1" 0 60 "" "" ""
                  [("id", JStr "R1"); ("url", JStr "https://consent.example/R1")]
                  [("status", JStr "active")]
                  [("sessionId", JStr "S1")] "active"
                  eq_refl eq_refl eq_refl eq_refl eq_refl eq_refl eq_refl
                  eq_refl ltac:(unfold timedelta_days; lia))).
Defined.

Lemma empty_payload_is_empty_frame_witness :
  _process_setu_fi_data (JObj []) 0 = empty_frame
  ∧ success (fst (fetch_fi_data (Demo.net_ok (JObj [])) (Demo.collector ∅) "S1" 0)) = true
  ∧ data (fst (fetch_fi_data (Demo.net_ok (JObj [])) (Demo.collector ∅) "S1" 0))
    = Some empty_frame
  ∧ records_collected (fst (fetch_fi_data (Demo.net_ok (JObj [])) (Demo.collector ∅) "S1" 0))
    = 0%nat.
Proof.
  apply (@empty_payload_is_empty_frame demo_runtime (Demo.net_ok (JObj []))
           (Demo.collector ∅) "S1" 0 "" []); reflexivity.
Defined.

Lemma normalised_columns_witness :
  df_columns (_process_setu_fi_data Demo.payload_ok 0)
  = match accounts_of Demo.payload_ok with
    | [] => df_columns empty_frame
    | _ => if (total_transactions Demo.payload_ok =? 0)%nat
           then summary_keys
           else summary_keys ++ transaction_keys
    end.
Proof.
  apply (@normalised_columns demo_runtime Demo.payload_ok
           (@_process_setu_fi_data demo_runtime Demo.payload_ok 0)).
  reflexivity.
Defined.

Lemma missing_amount_defaults_to_zero_witness :
  assoc_get
    (match transaction_data
             (match summary_data (JObj [("accountId", JStr "A1")]) with
              | Ok summary => summary
              | Raise _ => []
              end)
             (JObj [("transactionId", JStr "T1")]) with
     | Ok r => r
     | Raise _ => []
     end) "amount" = Some (JFloat 0).
Proof.
  apply (@missing_amount_defaults_to_zero demo_runtime (JObj [("accountId", JStr "A1")])
           (match @summary_data demo_runtime (JObj [("accountId", JStr "A1")]) with
            | Ok summary => summary
            | Raise _ => []
            end)
           [("transactionId", JStr "T1")]); reflexivity.
Defined.

Lemma failed_configure_keeps_collector_usable_witness :
  ∃ consent,
    fst (create_consent_request Demo.net_down
           (fst (snd (configure (JObj [("client_id", JStr "other")])
                        (Demo.collector ∅) Scenario.credentials)))
           "user-42" None "Credit Assessment" 30 None None "H1" 0) = Ok consent.
Proof.
  destruct (@failed_configure_keeps_collector_usable demo_runtime
              (JObj [("client_id", JStr "other")]) (Demo.collector ∅) Scenario.credentials
              Demo.net_down "user-42" None "Credit Assessment" 30 None None "H1" 0
              eq_refl eq_refl eq_refl) as (consent & H & _).
  by exists consent.
Defined.

Lemma collect_data_reports_creation_as_success_witness :
  ∃ r,
    fst (collect_data Demo.net_down (Demo.collector ∅) "user-42" Scenario.no_kwargs "H1" 0)
    = inr r
    ∧ success r = true
    ∧ assoc_get (metadata r) "consent_status" = Some (JStr "denied").
Proof.
  destruct (@collect_data_reports_creation_as_success demo_runtime Demo.net_down
              (Demo.collector ∅) "user-42" Scenario.no_kwargs "H1" 0
              eq_refl eq_refl eq_refl eq_refl) as (r & st & Hr & Hs & _ & _ & Hm & _ & Hd).
  exists r. split; [exact Hr|]. split; [exact Hs|].
  rewrite Hm, (Hd eq_refl). reflexivity.
Defined.

Lemma collect_data_raises_without_grant_witness :
  ∃ msg,
    fst (collect_data (Demo.net_ok (Demo.remote_status "PENDING"))
           (Demo.tracking PENDING (JStr "R1") 100) "user-42"
           {| kw_consent_handle := Some "H1"%string; kw_session_id := None;
              kw_fi_types := None; kw_purpose := None; kw_duration_days := None;
              kw_customer_mobile := None; kw_customer_name := None |} "H2" 50) = inl msg.
Proof.
  apply (@collect_data_raises_without_grant demo_runtime
           (Demo.net_ok (Demo.remote_status "PENDING"))
           (Demo.tracking PENDING (JStr "R1") 100) "user-42" _ "H1" "H2" 50);
    [reflexivity | reflexivity | vm_compute; discriminate].
Defined.

Lemma initiate_aa_flow_outcome_witness :
  fst (ConsentRoutes.initiate_aa_flow Demo.net_down (Demo.collector ∅) "user-42"
         "9876543210" None ["DEPOSIT"%string] "Credit Assessment" 30 "H1" 0)
  = inl (Routes.mkHTTPException 400 (JStr "Failed to create consent request")).
Proof.
  exact (proj1 (@initiate_aa_flow_outcome demo_runtime Demo.net_down (Demo.collector ∅)
                  "user-42" "9876543210" None ["DEPOSIT"%string] "Credit Assessment" 30
                  "H1" 0 eq_refl) eq_refl).
Defined.

Lemma second_status_check_answers_500_witness :
  fst (Routes.request_fi_data Scenario.net_flapping
         (Demo.tracking PENDING (JStr "R1") 100) "H1" 10 20)
  = inl (Routes.mkHTTPException 500
           (JStr "Internal server error: Consent not granted or expired"))
  ∧ net_log (snd (Routes.request_fi_data Scenario.net_flapping
                    (Demo.tracking PENDING (JStr "R1") 100) "H1" 10 20))
    = [GET "https://fiu-uat.setu.co/Consent/handle/R1";
       GET "https://fiu-uat.setu.co/Consent/handle/R1"].
Proof.
  exact (@second_status_check_answers_500 demo_runtime Scenario.net_flapping
           (Demo.tracking PENDING (JStr "R1") 100) "H1" 10 20
           eq_refl ltac:(vm_compute; discriminate)).
Defined.

Lemma device_user_id_is_required_witness :
  Device.process_device_data Scenario.json_loads Scenario.exception_text Scenario.pd_assign
    Device.initial (JObj [("device_info", JObj [])]) 0
  = (Device.failure "Invalid data structure", Device.initial)
  ∧ Device.process_device_data Scenario.json_loads Scenario.exception_text Scenario.pd_assign
      Device.initial (JObj [("user_id", JStr "")]) 0
    = (Device.failure "Missing user_id in data", Device.initial).
Proof.
  split.
  - exact (proj1 (@device_user_id_is_required demo_runtime Scenario.json_loads
                    Scenario.exception_text Scenario.pd_assign Device.initial
                    [("device_info", JObj [])] 0) eq_refl).
  - exact (proj2 (@device_user_id_is_required demo_runtime Scenario.json_loads
                    Scenario.exception_text Scenario.pd_assign Device.initial
                    [("user_id", JStr "")] 0) (JStr "") eq_refl eq_refl eq_refl).
Defined.

Lemma device_unsupported_keys_are_accepted_witness :
  fst (Device.process_device_data Scenario.json_loads Scenario.exception_text
         Scenario.pd_assign Device.initial (JObj Scenario.device_data) 7)
  = {| success := true;
       data := Some {| df_columns := ["user_id"; "collection_timestamp"]%string;
                       df_rows := [[CVal (JStr "user-42"); CTimestamp 7]] |};
       metadata := [ ("user_id", JStr "user-42");
                     ("data_source", JStr "device_data");
                     ("data_types", JArr [JStr "user_id"; JStr "battery"]);
                     ("collection_method", JStr "mobile_app") ];
       error_message := None; records_collected := 1%nat;
       collection_timestamp := Some 7 |}.
Proof.
  apply (@device_unsupported_keys_are_accepted demo_runtime Scenario.json_loads
           Scenario.exception_text Scenario.pd_assign Device.initial
           Scenario.device_data (JStr "user-42") 7); reflexivity.
Defined.

Lemma device_collect_uses_callers_user_id_witness :
  assoc_get
    (metadata
       (fst (Device.collect_data Scenario.json_loads Scenario.exception_text
               Scenario.pd_assign Device.initial "user-7" (JObj Scenario.device_data) 7)))
    "user_id" = Some (JStr "user-7")
  ∧ "user-7"%string ≠ ""%string.
Proof.
  apply (@device_collect_uses_callers_user_id demo_runtime Scenario.json_loads
           Scenario.exception_text Scenario.pd_assign Device.initial "user-7"
           Scenario.device_data 7); [discriminate | reflexivity].
Defined.

Lemma device_bad_supported_types_fail_later_witness :
  fst (Device.configure (JObj [("supported_data_types", JStr "device_info")]) Device.initial)
  = true
  ∧ Device.process_device_data Scenario.json_loads Scenario.exception_text Scenario.pd_assign
      (snd (Device.configure (JObj [("supported_data_types", JStr "device_info")])
              Device.initial))
      (JObj Scenario.device_data) 7
    = (Device.failure "TypeError",
       snd (Device.configure (JObj [("supported_data_types", JStr "device_info")])
              Device.initial)).
Proof.
  apply (@device_bad_supported_types_fail_later demo_runtime Scenario.json_loads
           Scenario.exception_text Scenario.pd_assign Device.initial
           [("supported_data_types", JStr "device_info")] Scenario.device_data
           (JStr "device_info") (JStr "user-42") 7);
    [reflexivity | discriminate | reflexivity].
Defined.
End FurtherExamples.

Section FallbackSize.
Context `{RT : PyRuntime}.

(** When the normalisation of a dict payload raises, the fetch that reports
    success counts between 50 and 199 records, whatever the payload held,
    and every row of its frame names the user "demo_user" and the account
    "ACC_demo_user_001". *)
Theorem fallback_record_count (net : Network) (c : Collector) (session_id : string)
    (now : Z) (text : string) (kv : list (string * Json pyfloat)) (e : PyExn) :
  net (length (net_log c)) (GET (api_base_url c +:+ "/FI/fetch/" +:+ session_id))
    = NetResponse 200 text (inr (JObj kv)) →
  process_body (JObj kv) = Raise e →
  success (fst (fetch_fi_data net c session_id now)) = true
  ∧ (50 ≤ records_collected (fst (fetch_fi_data net c session_id now)) < 200)%nat
  ∧ ∃ df, data (fst (fetch_fi_data net c session_id now)) = Some df
          ∧ df_len df = records_collected (fst (fetch_fi_data net c session_id now))
          ∧ Forall (λ row, row !! 0%nat = Some (CVal (JStr "demo_user"))
                           ∧ row !! 6%nat = Some (CVal (JStr "ACC_demo_user_001"))
                           ∧ length row = length (df_columns df))
              (df_rows df).
Proof.
  intros Hnet Hraise. rewrite (fetch_dict_payload net c session_id now text kv Hnet).
  cbn [success records_collected data]. unfold _process_setu_fi_data. rewrite Hraise.
  split; [done|]. split; [apply sample_data_size|].
  eexists. split; [reflexivity|]. split; [reflexivity|].
  unfold _generate_sample_financial_data. cbn [df_rows df_columns].
  apply Forall_fmap, Forall_forall. intros i _. cbn. done.
Qed.
End FallbackSize.

Section FallbackSizeExamples.
#[local] Existing Instance demo_runtime.

Lemma fallback_record_count_witness :
  success (fst (fetch_fi_data (Demo.net_ok Demo.payload_bad_amount) (Demo.collector ∅)
                  "S1" 0)) = true
  ∧ (50 ≤ records_collected
            (fst (fetch_fi_data (Demo.net_ok Demo.payload_bad_amount) (Demo.collector ∅)
                    "S1" 0)) < 200)%nat.
Proof.
  destruct (@fallback_record_count demo_runtime (Demo.net_ok Demo.payload_bad_amount)
              (Demo.collector ∅) "S1" 0 ""
              [("Accounts", JArr [ Demo.account "A1" [Demo.transaction "T1" (JStr "abc");
                                                      Demo.transaction "T2" (JStr "75")];
                                   Demo.account "A2" [] ])]
              ValueError eq_refl eq_refl) as (Hs & Hn & _).
  split; assumption.
Defined.
End FallbackSizeExamples.
